(** * USearch SQLite bindings: distance functions over heterogeneous arguments

    A shallow embedding of [python/lib_sqlite.cpp]: the argument-format
    detector and vector builder [sqlite_dense_export], the result adapters
    [sqlite_dense] and [sqlite_haversine_meters], and the edit-distance entry
    point [sqlite_levenshtein] with its process-wide scratch buffer
    [temporary_memory] and the destructor [cleanup_temporary_memory].

    Calls that leave the translation unit (the metric kernels, the host's
    result channel, the allocator, the edit-distance kernel) are recorded as
    events, in call order, so that "no metric is invoked" and "exactly one
    result is emitted" are statements about a trace. *)

From Stdlib Require Import ZArith List String Ascii Bool Lia.
From Stdlib Require Import Floats.PrimFloat Floats.SpecFloat Floats.FloatOps.
Import ListNotations.

Local Open Scope string_scope.
Local Open Scope list_scope.
Local Open Scope Z_scope.

(** ** Scalars *)

(** Modelled from the spec: [f32_t] and [f64_t] are declared in the index
    headers, not in this file; the scalar kinds are "32-bit float" and
    "64-bit float".  [f64_t] is IEEE binary64, the kernel's primitive
    [float].  An [f32_t] value is carried as the binary64 number equal to it
    (every binary32 value is one); storing a [double] into an [f32_t] rounds
    to the nearest binary32 value, ties to even, overflowing to infinity. *)
Definition f32_of_f64 (d : float) : float :=
  match Prim2SF d with
  | S754_finite s m e => SF2Prim (binary_round 24 128 s m e)
  | _ => d
  end.

(** Conversion of a C [int] to [double] (always exact) and to [float]. *)
Definition f64_of_int (z : Z) : float := SF2Prim (binary_normalize 53 1024 z 0 false).
Definition f32_of_int (z : Z) : float := SF2Prim (binary_normalize 24 128 z 0 false).

Inductive scalar_kind_t : Set := b1x8_k | i8_k | f16_k | f32_k | f64_k.

Inductive metric_kind_t : Set :=
  l2sq_k | cos_k | ip_k | hamming_k | jaccard_k | divergence_k | haversine_k.

(** Modelled from the spec: [bits_per_scalar] is declared in the index
    headers, not in this file; "dimension = byte_length x 8 /
    bits-per-scalar(ScalarKind)" with the widths the kind names carry. *)
Definition bits_per_scalar (k : scalar_kind_t) : Z :=
  match k with
  | b1x8_k => 1
  | i8_k => 8
  | f16_k => 16
  | f32_k => 32
  | f64_k => 64
  end.

Definition CHAR_BIT : Z := 8.

(** [parsed_scalar_kind_gt<k>::kind]: [f64_k] for the [f64_k]
    specialisation, [f32_k] for the primary template. *)
Definition parsed_scalar_kind_gt (k : scalar_kind_t) : scalar_kind_t :=
  match k with
  | f64_k => f64_k
  | _ => f32_k
  end.

(** Implicit conversions into [parsed_scalar_kind_gt<k>::type], applied to
    the parsed kind. *)
Definition scalar_of_double (parsed : scalar_kind_t) (d : float) : float :=
  match parsed with
  | f64_k => d
  | _ => f32_of_f64 d
  end.

Definition scalar_of_int (parsed : scalar_kind_t) (z : Z) : float :=
  match parsed with
  | f64_k => f64_of_int z
  | _ => f32_of_int z
  end.

(** ** Host values *)

Inductive sqlite3_value : Type :=
| value_integer (i : Z)            (* a signed 64-bit integer *)
| value_float (d : float)
| value_text (s : string)
| value_blob (b : list Byte.byte)
| value_null.

Definition SQLITE_INTEGER : Z := 1.
Definition SQLITE_FLOAT : Z := 2.
Definition SQLITE_TEXT : Z := 3.
Definition SQLITE_BLOB : Z := 4.
Definition SQLITE_NULL : Z := 5.

Definition sqlite3_value_type (v : sqlite3_value) : Z :=
  match v with
  | value_integer _ => SQLITE_INTEGER
  | value_float _ => SQLITE_FLOAT
  | value_text _ => SQLITE_TEXT
  | value_blob _ => SQLITE_BLOB
  | value_null => SQLITE_NULL
  end.

(** The accessors below are only ever applied, in this file, to a value
    whose type was tested first; the other cases are the defaults of the
    host's API that the code never reaches. *)
Definition sqlite3_value_blob (v : sqlite3_value) : list Byte.byte :=
  match v with
  | value_blob b => b
  | _ => []
  end.

Definition sqlite3_value_text (v : sqlite3_value) : string :=
  match v with
  | value_text s => s
  | _ => ""
  end.

Definition sqlite3_value_bytes (v : sqlite3_value) : Z :=
  match v with
  | value_blob b => Z.of_nat (List.length b)
  | value_text s => Z.of_nat (String.length s)
  | _ => 0
  end.

Definition sqlite3_value_double (v : sqlite3_value) : float :=
  match v with
  | value_float d => d
  | _ => 0%float
  end.

(** The host narrows its 64-bit integer to a C [int]: the low 32 bits, read
    as two's complement. *)
Definition int32_wrap (i : Z) : Z := (i + 2 ^ 31) mod 2 ^ 32 - 2 ^ 31.

Definition sqlite3_value_int (v : sqlite3_value) : Z :=
  match v with
  | value_integer i => int32_wrap i
  | _ => 0
  end.

(** ** Events *)

(** What a metric receives through its two [byte_t const*] arguments: the
    bytes of a blob, or an array of parsed scalars. *)
Inductive buffer : Type :=
| raw_bytes (b : list Byte.byte)
| scalars (xs : list float).

(** [NULL] is [None]; a block is named by a number. *)
Definition pointer : Set := option nat.

Inductive event : Type :=
| ev_stack_array (n : Z)
    (* [scalar_t parsed[n]]: an array of [n] scalars in the call's frame;
       whether the frame can hold it is settled by [sqlite_dense_run] *)
| ev_metric (dimensions : Z) (mk : metric_kind_t) (sk : scalar_kind_t) (a b : buffer)
    (* [metric_t(dimensions, mk, sk)(a, b)] *)
| ev_result_error (msg : string)
| ev_result_double (d : float)
| ev_result_int (z : Z)
| ev_realloc64 (old : pointer) (n : Z) (fresh : pointer)
| ev_free (p : pointer)
| ev_levenshtein (a b : string) (bound : Z) (scratch : pointer).

Definition is_metric (e : event) : bool :=
  match e with
  | ev_metric _ _ _ _ _ => true
  | _ => false
  end.

Definition is_result (e : event) : bool :=
  match e with
  | ev_result_error _ | ev_result_double _ | ev_result_int _ => true
  | _ => false
  end.

Definition is_stack_array (e : event) : bool :=
  match e with
  | ev_stack_array _ => true
  | _ => false
  end.

(** ** Strings as [(pointer, remaining bytes)] cursors *)

(** [sz_count_char_swar(text, length, ",")]. *)
Fixpoint sz_count_char (s : string) (c : ascii) : Z :=
  match s with
  | EmptyString => 0
  | String x rest => (if Ascii.eqb x c then 1 else 0) + sz_count_char rest c
  end.

(** [if (bytes && vec[0] == '[') ++vec, --bytes;] *)
Definition strip_bracket (s : string) : string :=
  match s with
  | String x rest => if Ascii.eqb x "[" then rest else s
  | EmptyString => s
  end.

(** [while (bytes && vec[0] == ' ') ++vec, --bytes;] *)
Fixpoint skip_spaces (s : string) : string :=
  match s with
  | String x rest => if Ascii.eqb x " " then skip_spaces rest else s
  | EmptyString => s
  end.

(** [while (bytes && (vec[0] == ' ' || vec[0] == ',')) ++vec, --bytes;] *)
Fixpoint skip_spaces_and_commas (s : string) : string :=
  match s with
  | String x rest =>
      if Ascii.eqb x " " || Ascii.eqb x "," then skip_spaces_and_commas rest else s
  | EmptyString => s
  end.

(** [vec += k, bytes -= k]. *)
Fixpoint advance (k : nat) (s : string) : string :=
  match k, s with
  | O, _ => s
  | S k', String _ rest => advance k' rest
  | S _, EmptyString => s
  end.

(** ** The dense distance functions *)

(** The caller's two out-parameters and the calls made so far. *)
Record export_state : Type := mk_export_state {
  distance_out : float;
  error_message_out : option string;
  events : list event
}.

Definition set_error (msg : string) (st : export_state) : export_state :=
  {| distance_out := distance_out st;
     error_message_out := Some msg;
     events := events st |}.

Definition set_distance (d : float) (st : export_state) : export_state :=
  {| distance_out := d;
     error_message_out := error_message_out st;
     events := events st |}.

Definition record_event (e : event) (st : export_state) : export_state :=
  {| distance_out := distance_out st;
     error_message_out := error_message_out st;
     events := events st ++ [e] |}.

Definition different_dimensions : string := "Vectors have different number of dimensions".
Definition too_few_arguments : string := "Distance function expects at least two arguments".
Definition cannot_parse : string := "Number can't be parsed".
Definition unsupported_column : string :=
  "Scalar columns may only contain 32-bit integers, floats, or NULLs.".
Definition not_divisible : string :=
  "Number of columns in two vectors must be divisible by two".

Section Dense.

(** The number parser of the text branch ([std::from_chars], or
    [std::strtod] where the former is missing).  Given the scalar type to
    parse into and the unread characters it returns the value and how many
    characters it read, or [None] when the code takes its error exit
    ([ec != std::errc()], resp. nothing read).  Neither reads past the
    unread characters, so [advance] by the count is the code's pointer
    update. *)
Variable from_chars : scalar_kind_t -> string -> option (float * nat).

(** The metric kernels, behind [metric_t]: pure functions of the
    dimension, the two kinds and the two buffers.  Their result type
    [distance_punned_t] is declared in the index headers; it is carried
    here, as every scalar, by the binary64 number equal to it. *)
Variable metric : Z -> metric_kind_t -> scalar_kind_t -> buffer -> buffer -> float.

(** Constructs the metric, calls it, stores the result. *)
Definition compute_distance (dimensions : Z) (mk : metric_kind_t) (sk : scalar_kind_t)
    (a b : buffer) (st : export_state) : export_state :=
  set_distance (metric dimensions mk sk a b)
    (record_event (ev_metric dimensions mk sk a b) st).

(** The body of the text branch's [for] loop, [n] iterations left;
    [None] is the "Number can't be parsed" exit. *)
Fixpoint parse_texts (parsed : scalar_kind_t) (n : nat) (vec1 vec2 : string)
    : option (list float * list float) :=
  match n with
  | O => Some ([], [])
  | S n' =>
      let vec1 := skip_spaces vec1 in
      let vec2 := skip_spaces vec2 in
      match from_chars parsed vec1, from_chars parsed vec2 with
      | Some (x1, k1), Some (x2, k2) =>
          let vec1 := skip_spaces_and_commas (advance k1 vec1) in
          let vec2 := skip_spaces_and_commas (advance k2 vec2) in
          match parse_texts parsed n' vec1 vec2 with
          | Some (parsed1, parsed2) => Some (x1 :: parsed1, x2 :: parsed2)
          | None => None
          end
      | _, _ => None
      end
  end.

(** One [switch] of the column branch; [None] is its [default:] exit. *)
Definition column_scalar (parsed : scalar_kind_t) (v : sqlite3_value) : option float :=
  let t := sqlite3_value_type v in
  if t =? SQLITE_FLOAT then Some (scalar_of_double parsed (sqlite3_value_double v))
  else if t =? SQLITE_INTEGER then Some (scalar_of_int parsed (sqlite3_value_int v))
  else if t =? SQLITE_NULL then Some (scalar_of_int parsed 0)
  else None.

(** The column branch's [for] loop from index [i], [n] iterations left. *)
Fixpoint parse_columns (parsed : scalar_kind_t) (argv : list sqlite3_value)
    (dimensions : nat) (n : nat) (i : nat) : option (list float * list float) :=
  match n with
  | O => Some ([], [])
  | S n' =>
      match column_scalar parsed (nth i argv value_null) with
      | None => None
      | Some x1 =>
          match column_scalar parsed (nth (dimensions + i) argv value_null) with
          | None => None
          | Some x2 =>
              match parse_columns parsed argv dimensions n' (S i) with
              | Some (parsed1, parsed2) => Some (x1 :: parsed1, x2 :: parsed2)
              | None => None
              end
          end
      end
  end.

(** First branch: two blobs. *)
Definition export_blobs (sk : scalar_kind_t) (mk : metric_kind_t)
    (a0 a1 : sqlite3_value) (st : export_state) : export_state :=
  let vec1 := sqlite3_value_blob a0 in
  let vec2 := sqlite3_value_blob a1 in
  let bytes1 := sqlite3_value_bytes a0 in
  let bytes2 := sqlite3_value_bytes a1 in
  if negb (bytes1 =? bytes2) then set_error different_dimensions st
  else
    let dimensions := bytes1 * CHAR_BIT / bits_per_scalar sk in
    compute_distance dimensions mk sk (raw_bytes vec1) (raw_bytes vec2) st.

(** Second branch: two texts.  The trace is that of a call whose frame
    holds the two arrays; [sqlite_dense_run] is the call on a bounded
    stack. *)
Definition export_texts (sk : scalar_kind_t) (mk : metric_kind_t)
    (a0 a1 : sqlite3_value) (st : export_state) : export_state :=
  let vec1 := sqlite3_value_text a0 in
  let vec2 := sqlite3_value_text a1 in
  let commas1 := sz_count_char vec1 "," in
  let commas2 := sz_count_char vec2 "," in
  if negb (commas1 =? commas2) then set_error different_dimensions st
  else
    let vec1 := strip_bracket vec1 in
    let vec2 := strip_bracket vec2 in
    let parsed := parsed_scalar_kind_gt sk in
    let dimensions := commas1 + 1 in
    let st := record_event (ev_stack_array dimensions) st in
    let st := record_event (ev_stack_array dimensions) st in
    match parse_texts parsed (Z.to_nat dimensions) vec1 vec2 with
    | None => set_error cannot_parse st
    | Some (parsed1, parsed2) =>
        compute_distance dimensions mk parsed (scalars parsed1) (scalars parsed2) st
    end.

(** Third branch: scalar columns. *)
Definition export_columns (sk : scalar_kind_t) (mk : metric_kind_t)
    (argv : list sqlite3_value) (st : export_state) : export_state :=
  let argc := Z.of_nat (List.length argv) in
  let parsed := parsed_scalar_kind_gt sk in
  let dimensions := Z.quot argc 2 in
  let st := record_event (ev_stack_array dimensions) st in
  let st := record_event (ev_stack_array dimensions) st in
  match parse_columns parsed argv (Z.to_nat dimensions) (Z.to_nat dimensions) 0 with
  | None => set_error unsupported_column st
  | Some (parsed1, parsed2) =>
      compute_distance dimensions mk parsed (scalars parsed1) (scalars parsed2) st
  end.

(** [sqlite_dense_export<sk, mk>(context, argc, argv, &distance, &error)];
    [argc] is the length of [argv]. *)
Definition sqlite_dense_export (sk : scalar_kind_t) (mk : metric_kind_t)
    (argv : list sqlite3_value) (st : export_state) : export_state :=
  let argc := Z.of_nat (List.length argv) in
  if argc <? 2 then set_error too_few_arguments st
  else
    let a0 := nth 0 argv value_null in
    let a1 := nth 1 argv value_null in
    let type1 := sqlite3_value_type a0 in
    let type2 := sqlite3_value_type a1 in
    if (argc =? 2) && (type1 =? SQLITE_BLOB) && (type2 =? SQLITE_BLOB)
    then export_blobs sk mk a0 a1 st
    else if (argc =? 2) && (type1 =? SQLITE_TEXT) && (type2 =? SQLITE_TEXT)
    then export_texts sk mk a0 a1 st
    else if Z.rem argc 2 =? 0
    then export_columns sk mk argv st
    else set_error not_divisible st.

(** [distance_punned_t result = 0; char const* error_message = NULL;] *)
Definition export_start : export_state :=
  {| distance_out := 0%float; error_message_out := None; events := [] |}.

(** [sqlite_dense<sk, mk>(context, argc, argv)]: the calls it makes. *)
Definition sqlite_dense (sk : scalar_kind_t) (mk : metric_kind_t)
    (argv : list sqlite3_value) : list event :=
  let st := sqlite_dense_export sk mk argv export_start in
  match error_message_out st with
  | Some error_message => events st ++ [ev_result_error error_message]
  | None => events st ++ [ev_result_double (distance_out st)]
  end.

Definition earth_radius_meters : float := 6371009%float.

(** The kind of [distance_punned_t], which the index headers declare:
    [f64_k] if it is [double], any other kind if it is [float]. *)
Variable distance_kind : scalar_kind_t.

(** [result * 6371009], a product in [distance_punned_t]: both factors are
    numbers of that type (6371009 is one in binary32 too), so it is their
    binary64 product stored into that type. *)
Definition scale_to_meters (result : float) : float :=
  scalar_of_double distance_kind (result * earth_radius_meters)%float.

(** [sqlite_haversine_meters(context, argc, argv)]. *)
Definition sqlite_haversine_meters (argv : list sqlite3_value) : list event :=
  let st := sqlite_dense_export f64_k haversine_k argv export_start in
  match error_message_out st with
  | Some error_message => events st ++ [ev_result_error error_message]
  | None => events st ++ [ev_result_double (scale_to_meters (distance_out st))]
  end.

End Dense.

(** ** The edit-distance function and its scratch buffer *)

(** [sz_string_view_t]: the scratch region's address and size. *)
Record sz_string_view_t : Type := mk_string_view {
  start : pointer;
  length : Z
}.

(** The state shared by all calls in a process: the global
    [temporary_memory], the allocator's live blocks with their sizes (and the
    next unused block name), and the calls made so far. *)
Record process : Type := mk_process {
  temporary_memory : sz_string_view_t;
  live : list (nat * Z);
  next_block : nat;
  calls : list event
}.

(** [static sz_string_view_t temporary_memory = {NULL, 0};] *)
Definition process_start : process :=
  {| temporary_memory := {| start := None; length := 0 |};
     live := [];
     next_block := O;
     calls := [] |}.

Definition record_call (e : event) (p : process) : process :=
  {| temporary_memory := temporary_memory p;
     live := live p;
     next_block := next_block p;
     calls := calls p ++ [e] |}.

Definition release (old : pointer) (blocks : list (nat * Z)) : list (nat * Z) :=
  match old with
  | None => blocks
  | Some b => filter (fun x => negb (Nat.eqb (fst x) b)) blocks
  end.

(** [sqlite3_realloc64(old, n)] for a request the allocator satisfies: the
    old block, if any, is given back and a block of [n] bytes is live
    instead.  (The code does not test the returned pointer; a refused request
    is outside this model.) *)
Definition sqlite3_realloc64 (old : pointer) (n : Z) (p : process) : pointer * process :=
  let fresh := Some (next_block p) in
  (fresh,
   {| temporary_memory := temporary_memory p;
      live := (next_block p, n) :: release old (live p);
      next_block := S (next_block p);
      calls := calls p ++ [ev_realloc64 old n fresh] |}).

(** [sqlite3_free(old)]. *)
Definition sqlite3_free (old : pointer) (p : process) : process :=
  {| temporary_memory := temporary_memory p;
     live := release old (live p);
     next_block := next_block p;
     calls := calls p ++ [ev_free old] |}.

Definition set_temporary_memory (v : sz_string_view_t) (p : process) : process :=
  {| temporary_memory := v;
     live := live p;
     next_block := next_block p;
     calls := calls p |}.

Definition expects_two_texts : string :=
  "Levenshtein distance function expects two text arguments".

Section Levenshtein.

(** The two entry points of the string library this file calls:
    the scratch size for two lengths, and the bounded edit distance (a
    function of the two strings and the bound; the scratch region carries
    nothing from one call to the next). *)
Variable sz_levenshtein_memory_needed : Z -> Z -> Z.
Variable sz_levenshtein : string -> string -> Z -> Z.

(** [sqlite_levenshtein(context, argc, argv)].  The function is registered
    with exactly two parameters, so [argv[0]] and [argv[1]] exist. *)
Definition sqlite_levenshtein (argv : list sqlite3_value) (p : process) : process :=
  let a0 := nth 0 argv value_null in
  let a1 := nth 1 argv value_null in
  let type1 := sqlite3_value_type a0 in
  let type2 := sqlite3_value_type a1 in
  if negb (type1 =? SQLITE_TEXT) || negb (type2 =? SQLITE_TEXT)
  then record_call (ev_result_error expects_two_texts) p
  else
    let str1 := sqlite3_value_text a0 in
    let str2 := sqlite3_value_text a1 in
    let bytes1 := sqlite3_value_bytes a0 in
    let bytes2 := sqlite3_value_bytes a1 in
    let memory_needed := sz_levenshtein_memory_needed bytes1 bytes2 in
    let p :=
      if length (temporary_memory p) <? memory_needed
      then
        let (fresh, p) := sqlite3_realloc64 (start (temporary_memory p)) memory_needed p in
        set_temporary_memory {| start := fresh; length := memory_needed |} p
      else p in
    let distance := sz_levenshtein str1 str2 255 in
    let p := record_call (ev_levenshtein str1 str2 255 (start (temporary_memory p))) p in
    record_call (ev_result_int distance) p.

(** [cleanup_temporary_memory(userData)], the function's destructor. *)
Definition cleanup_temporary_memory (p : process) : process :=
  match start (temporary_memory p) with
  | Some _ =>
      let p := sqlite3_free (start (temporary_memory p)) p in
      set_temporary_memory {| start := None; length := 0 |} p
  | None => p
  end.

(** What the host may do with the registered function, in any order. *)
Inductive operation : Type :=
| op_levenshtein (argv : list sqlite3_value)
| op_cleanup.

Definition step (p : process) (o : operation) : process :=
  match o with
  | op_levenshtein argv => sqlite_levenshtein argv p
  | op_cleanup => cleanup_temporary_memory p
  end.

Definition run (ops : list operation) (p : process) : process :=
  fold_left step ops p.

(** The scratch size a call asks for; [None] when it stops at the type
    test. *)
Definition requested (argv : list sqlite3_value) : option Z :=
  match nth 0 argv value_null, nth 1 argv value_null with
  | value_text s1, value_text s2 =>
      Some (sz_levenshtein_memory_needed (Z.of_nat (String.length s1))
                                         (Z.of_nat (String.length s2)))
  | _, _ => None
  end.

End Levenshtein.

(** Modelled from the spec: the edit-distance kernel [sz_levenshtein] belongs
    to the string library and is not in this file.  "Edit (Levenshtein)
    distance: minimum number of single-character insertions / deletions /
    substitutions to transform one string into another", and "edit distance
    (max cost 255)": the distance, capped at the bound. *)
Fixpoint edit_distance (a b : string) {struct a} : nat :=
  match a with
  | EmptyString => String.length b
  | String x a' =>
      (fix against (b : string) : nat :=
         match b with
         | EmptyString => String.length a
         | String y b' =>
             Nat.min (Nat.min (S (edit_distance a' b)) (S (against b')))
                     ((if Ascii.eqb x y then 0 else 1) + edit_distance a' b')
         end) b
  end.

Definition edit_distance_bounded (a b : string) (bound : Z) : Z :=
  Z.min (Z.of_nat (edit_distance a b)) bound.

(** Edit scripts, for stating that [edit_distance] is the minimum: [n]
    single-character edits turn [a] into [b]. *)
Inductive edit_script : string -> string -> nat -> Prop :=
| script_done : edit_script "" "" 0
| script_keep c a b n : edit_script a b n -> edit_script (String c a) (String c b) n
| script_substitute c d a b n :
    edit_script a b n -> edit_script (String c a) (String d b) (S n)
| script_delete c a b n : edit_script a b n -> edit_script (String c a) b (S n)
| script_insert d a b n : edit_script a b n -> edit_script a (String d b) (S n).

(** ** Error kinds *)

(** Modelled from the spec: the code reports failures as messages only; the
    kinds are the spec's grouping of them: "MalformedInput (dimension
    mismatch, unparsable numeral, wrong column parity), UnsupportedType
    (non-numeric column value), ArgumentCountError (fewer than two
    arguments)". *)
Inductive ErrorKind : Set := MalformedInput | UnsupportedType | ArgumentCountError.

Definition error_kind (msg : string) : option ErrorKind :=
  if String.eqb msg different_dimensions then Some MalformedInput
  else if String.eqb msg cannot_parse then Some MalformedInput
  else if String.eqb msg not_divisible then Some MalformedInput
  else if String.eqb msg unsupported_column then Some UnsupportedType
  else if String.eqb msg too_few_arguments then Some ArgumentCountError
  else None.

(** ** Sample collaborators

    Concrete stand-ins for the external functions, used to run the model on
    examples. *)

Definition digit_value (c : ascii) : option Z :=
  let n := Z.of_nat (nat_of_ascii c) in
  if (48 <=? n) && (n <=? 57) then Some (n - 48) else None.

Fixpoint read_digits (s : string) (acc : Z) (k : nat) : Z * nat :=
  match s with
  | String c rest =>
      match digit_value c with
      | Some d => read_digits rest (10 * acc + d) (S k)
      | None => (acc, k)
      end
  | EmptyString => (acc, k)
  end.

(** The unsigned decimal integers among the numerals [std::from_chars]
    accepts. *)
Definition decimal_from_chars (parsed : scalar_kind_t) (s : string) : option (float * nat) :=
  match read_digits s 0 O with
  | (_, O) => None
  | (v, k) => Some (scalar_of_int parsed v, k)
  end.

(** The same binary64 datum (all NaNs being one). *)
Definition float_same (x y : float) : bool :=
  match Prim2SF x, Prim2SF y with
  | S754_zero s1, S754_zero s2 => Bool.eqb s1 s2
  | S754_infinity s1, S754_infinity s2 => Bool.eqb s1 s2
  | S754_nan, S754_nan => true
  | S754_finite s1 m1 e1, S754_finite s2 m2 e2 =>
      Bool.eqb s1 s2 && Pos.eqb m1 m2 && Z.eqb e1 e2
  | _, _ => false
  end.

Definition buffer_eqb (a b : buffer) : bool :=
  match a, b with
  | raw_bytes x, raw_bytes y =>
      Nat.eqb (List.length x) (List.length y)
      && forallb (fun p => Byte.eqb (fst p) (snd p)) (combine x y)
  | scalars x, scalars y =>
      Nat.eqb (List.length x) (List.length y)
      && forallb (fun p => float_same (fst p) (snd p)) (combine x y)
  | _, _ => false
  end.

(** A metric that tells equal buffers from different ones. *)
Definition discrete_metric (dimensions : Z) (mk : metric_kind_t) (sk : scalar_kind_t)
    (a b : buffer) : float :=
  if buffer_eqb a b then 0%float else 1%float.

(** A scratch size in the manner of the string library: two rows of
    distances. *)
Definition two_rows (bytes1 bytes2 : Z) : Z := 2 * (bytes2 + 1).


(** ** Vocabulary for the statements *)

(** The conditions of the first two branches of [sqlite_dense_export]. *)
Definition two_blobs (argv : list sqlite3_value) : bool :=
  (Z.of_nat (List.length argv) =? 2)
  && (sqlite3_value_type (nth 0 argv value_null) =? SQLITE_BLOB)
  && (sqlite3_value_type (nth 1 argv value_null) =? SQLITE_BLOB).

Definition two_texts (argv : list sqlite3_value) : bool :=
  (Z.of_nat (List.length argv) =? 2)
  && (sqlite3_value_type (nth 0 argv value_null) =? SQLITE_TEXT)
  && (sqlite3_value_type (nth 1 argv value_null) =? SQLITE_TEXT).

(** The exit of [sqlite_dense_export]'s chain of tests that a call takes. *)
Inductive branch : Set :=
| branch_too_few | branch_blobs | branch_texts | branch_columns | branch_unsupported.

Definition selected_branch (argv : list sqlite3_value) : branch :=
  let argc := Z.of_nat (List.length argv) in
  if argc <? 2 then branch_too_few
  else if two_blobs argv then branch_blobs
  else if two_texts argv then branch_texts
  else if Z.rem argc 2 =? 0 then branch_columns
  else branch_unsupported.

(** The detector as the specification words it (section 4.1), to compare
    with the code's: binary for two blobs of equal length, text for two
    texts, columns for an even count of at least four, nothing otherwise. *)
Inductive VectorEncoding : Set := Binary | DelimitedText | ColumnTuple.

Definition specified_encoding (argv : list sqlite3_value) : option VectorEncoding :=
  match argv with
  | [value_blob b1; value_blob b2] =>
      if Nat.eqb (List.length b1) (List.length b2) then Some Binary else None
  | [value_text _; value_text _] => Some DelimitedText
  | _ =>
      let argc := Z.of_nat (List.length argv) in
      if Z.even argc && (4 <=? argc) then Some ColumnTuple else None
  end.

(** Two vectors of unequal dimension, in the two encodings that carry a
    dimension of their own. *)
Definition unequal_dimension (a0 a1 : sqlite3_value) : bool :=
  match a0, a1 with
  | value_blob b1, value_blob b2 => negb (Nat.eqb (List.length b1) (List.length b2))
  | value_text s1, value_text s2 => negb (sz_count_char s1 "," =? sz_count_char s2 ",")
  | _, _ => false
  end.

(** The coercion of one column, by the shape of the value. *)
Definition coerce (parsed : scalar_kind_t) (v : sqlite3_value) : option float :=
  match v with
  | value_float d => Some (scalar_of_double parsed d)
  | value_integer i => Some (scalar_of_int parsed (int32_wrap i))
  | value_null => Some 0%float
  | value_text _ | value_blob _ => None
  end.

(** All of a list of optional values, if none is missing. *)
Fixpoint all_some {A : Type} (l : list (option A)) : option (list A) :=
  match l with
  | [] => Some []
  | Some x :: rest =>
      match all_some rest with
      | Some xs => Some (x :: xs)
      | None => None
      end
  | None :: _ => None
  end.

(** A text with or without a closing bracket behind it. *)
Definition close_bracket (b : bool) (s : string) : string :=
  if b then (s ++ "]")%string else s.

Definition stack_array_sizes (l : list event) : list Z :=
  flat_map (fun e => match e with ev_stack_array n => [n] | _ => [] end) l.

Definition only_stack_arrays (l : list event) : Prop :=
  Forall (fun e => is_stack_array e = true) l.

(** The two ways a call of [sqlite_dense_export] ends, seen from a state
    [st] before and [r] after: an error message and no metric call, or one
    metric call whose value is stored. *)
Inductive export_outcome
    (metric : Z -> metric_kind_t -> scalar_kind_t -> buffer -> buffer -> float)
    (mk : metric_kind_t) (st r : export_state) : Prop :=
| export_failed (msg : string) (pre : list event) :
    only_stack_arrays pre ->
    r = {| distance_out := distance_out st;
           error_message_out := Some msg;
           events := events st ++ pre |} ->
    export_outcome metric mk st r
| export_computed (pre : list event) (dimensions : Z) (sk : scalar_kind_t) (a b : buffer) :
    only_stack_arrays pre ->
    r = {| distance_out := metric dimensions mk sk a b;
           error_message_out := error_message_out st;
           events := events st ++ pre ++ [ev_metric dimensions mk sk a b] |} ->
    export_outcome metric mk st r.

(** The scratch region and the allocator agree: no region and no live
    block, or one live block, of the recorded size, at the recorded
    address. *)
Definition scratch_consistent (p : process) : Prop :=
  match start (temporary_memory p) with
  | None => length (temporary_memory p) = 0 /\ live p = []
  | Some b => live p = [(b, length (temporary_memory p))]
  end.

(** The blocks an event gives back to the allocator. *)
Definition released (e : event) : list nat :=
  match e with
  | ev_free (Some b) => [b]
  | ev_realloc64 (Some b) _ _ => [b]
  | _ => []
  end.

Definition released_blocks (l : list event) : list nat := flat_map released l.

(** Every block handed out so far is either the scratch region or was given
    back, once. *)
Definition blocks_accounted (p : process) : Prop :=
  scratch_consistent p
  /\ NoDup (released_blocks (calls p))
  /\ (forall b, In b (released_blocks (calls p)) <->
                (b < next_block p)%nat /\ start (temporary_memory p) <> Some b)
  /\ (forall b, start (temporary_memory p) = Some b -> (b < next_block p)%nat).

(** A text of [n] commas. *)
Fixpoint commas (n : nat) : string :=
  match n with
  | O => ""
  | S n' => String "," (commas n')
  end.

Definition is_realloc (e : event) : bool :=
  match e with
  | ev_realloc64 _ _ _ => true
  | _ => false
  end.

(** ** What a metric call is given *)

(** The two buffers of a metric call hold what the dimension promises: two
    blobs of one length with room for [dimensions] scalars of the
    function's kind, or two arrays of exactly [dimensions] scalars, at least
    one. *)
Definition buffers_fit (sk : scalar_kind_t) (e : event) : Prop :=
  match e with
  | ev_metric dimensions _ _ (raw_bytes b1) (raw_bytes b2) =>
      List.length b1 = List.length b2
      /\ 0 <= dimensions
      /\ dimensions * bits_per_scalar sk <= CHAR_BIT * Z.of_nat (List.length b1)
      /\ CHAR_BIT * Z.of_nat (List.length b1) < (dimensions + 1) * bits_per_scalar sk
  | ev_metric dimensions _ _ (scalars x1) (scalars x2) =>
      1 <= dimensions
      /\ Z.of_nat (List.length x1) = dimensions
      /\ Z.of_nat (List.length x2) = dimensions
  | ev_metric _ _ _ _ _ => False
  | _ => True
  end.

(** The kinds a metric call names: the function's metric kind, and the
    function's scalar kind for blobs but the parsed kind for arrays. *)
Definition kinds_match (sk : scalar_kind_t) (mk : metric_kind_t) (e : event) : Prop :=
  match e with
  | ev_metric _ mk' sk' (raw_bytes _) _ => mk' = mk /\ sk' = sk
  | ev_metric _ mk' sk' (scalars _) _ => mk' = mk /\ sk' = parsed_scalar_kind_gt sk
  | _ => True
  end.

(** The text branch's loop with one cursor only: one text parsed alone. *)
Fixpoint parse_text (from_chars : scalar_kind_t -> string -> option (float * nat))
    (parsed : scalar_kind_t) (n : nat) (vec : string) : option (list float) :=
  match n with
  | O => Some []
  | S n' =>
      let vec := skip_spaces vec in
      match from_chars parsed vec with
      | Some (x, k) =>
          match parse_text from_chars parsed n' (skip_spaces_and_commas (advance k vec)) with
          | Some rest => Some (x :: rest)
          | None => None
          end
      | None => None
      end
  end.

(** The two vectors of a call, exchanged: for two arguments the arguments,
    for columns the two halves. *)
Definition swap_vectors (argv : list sqlite3_value) : list sqlite3_value :=
  let dimensions := Z.to_nat (Z.quot (Z.of_nat (List.length argv)) 2) in
  skipn dimensions argv ++ firstn dimensions argv.

Definition mirror_event (e : event) : event :=
  match e with
  | ev_metric dimensions mk sk a b => ev_metric dimensions mk sk b a
  | _ => e
  end.

Definition mirror_state (st : export_state) : export_state :=
  {| distance_out := distance_out st;
     error_message_out := error_message_out st;
     events := map mirror_event (events st) |}.

(** A text of [n] spaces. *)
Fixpoint spaces (n : nat) : string :=
  match n with
  | O => ""
  | S n' => String " " (spaces n')
  end.

(** The result of [distance_haversine_f64], rescaled as
    [sqlite_haversine_meters] rescales it. *)
Definition rescale_result (distance_kind : scalar_kind_t) (e : event) : event :=
  match e with
  | ev_result_double d => ev_result_double (scale_to_meters distance_kind d)
  | _ => e
  end.

(** ** Registration *)

(** The three callbacks of the file, the dense one with its template
    arguments. *)
Inductive callback : Set :=
| call_haversine_meters
| call_levenshtein
| call_dense (sk : scalar_kind_t) (mk : metric_kind_t).

(** What [sqlite3_create_function] and [sqlite3_create_function_v2] record
    of a registration: the name, the number of parameters ([-1] for any),
    the callback, and whether [cleanup_temporary_memory] is its
    destructor. *)
Record registration : Type := mk_registration {
  zFunctionName : string;
  nArg : Z;
  eTextRep : Z;
  xFunc : callback;
  xDestroy : bool
}.

(** The host's flag values. *)
Definition SQLITE_UTF8 : Z := 1.
Definition SQLITE_DETERMINISTIC : Z := 2048.
Definition SQLITE_INNOCUOUS : Z := 2097152.

(** A register keyed, as the host's, by name and number of parameters: a
    second registration under one key replaces the first. *)
Definition same_key (r1 r2 : registration) : bool :=
  String.eqb (zFunctionName r1) (zFunctionName r2) && (nArg r1 =? nArg r2).

Definition sqlite3_create_function (db : list registration) (zFunctionName : string)
    (nArg : Z) (eTextRep : Z) (xFunc : callback) : list registration :=
  let r := mk_registration zFunctionName nArg eTextRep xFunc false in
  filter (fun r' => negb (same_key r r')) db ++ [r].

Definition sqlite3_create_function_v2 (db : list registration) (zFunctionName : string)
    (nArg : Z) (eTextRep : Z) (xFunc : callback) (xDestroy : bool) : list registration :=
  let r := mk_registration zFunctionName nArg eTextRep xFunc xDestroy in
  filter (fun r' => negb (same_key r r')) db ++ [r].

(** [sqlite3_compiled_init(db, error_message, api)]: the registrations, in
    the order of the source. *)
Definition sqlite3_compiled_init (db : list registration) : list registration :=
  let flags := Z.lor (Z.lor SQLITE_UTF8 SQLITE_DETERMINISTIC) SQLITE_INNOCUOUS in
  let num_params := -1 in
  let db := sqlite3_create_function db "distance_haversine_meters" num_params flags
              call_haversine_meters in
  let db := sqlite3_create_function_v2 db "distance_levenshtein" 2 flags
              call_levenshtein true in
  let db := sqlite3_create_function db "distance_hamming_binary" num_params flags
              (call_dense b1x8_k hamming_k) in
  let db := sqlite3_create_function db "distance_jaccard_binary" num_params flags
              (call_dense b1x8_k jaccard_k) in
  let db := sqlite3_create_function db "distance_haversine_f32" num_params flags
              (call_dense f32_k haversine_k) in
  let db := sqlite3_create_function db "distance_haversine_f64" num_params flags
              (call_dense f64_k haversine_k) in
  let db := sqlite3_create_function db "distance_sqeuclidean_f64" num_params flags
              (call_dense f64_k l2sq_k) in
  let db := sqlite3_create_function db "distance_cosine_f64" num_params flags
              (call_dense f64_k cos_k) in
  let db := sqlite3_create_function db "distance_inner_f64" num_params flags
              (call_dense f64_k ip_k) in
  let db := sqlite3_create_function db "distance_divergence_f64" num_params flags
              (call_dense f64_k divergence_k) in
  let db := sqlite3_create_function db "distance_sqeuclidean_f32" num_params flags
              (call_dense f32_k l2sq_k) in
  let db := sqlite3_create_function db "distance_cosine_f32" num_params flags
              (call_dense f32_k cos_k) in
  let db := sqlite3_create_function db "distance_inner_f32" num_params flags
              (call_dense f32_k ip_k) in
  let db := sqlite3_create_function db "distance_divergence_f32" num_params flags
              (call_dense f32_k divergence_k) in
  let db := sqlite3_create_function db "distance_sqeuclidean_f16" num_params flags
              (call_dense f16_k l2sq_k) in
  let db := sqlite3_create_function db "distance_cosine_f16" num_params flags
              (call_dense f16_k cos_k) in
  let db := sqlite3_create_function db "distance_inner_f16" num_params flags
              (call_dense f16_k ip_k) in
  let db := sqlite3_create_function db "distance_divergence_f16" num_params flags
              (call_dense f16_k divergence_k) in
  let db := sqlite3_create_function db "distance_sqeuclidean_i8" num_params flags
              (call_dense i8_k l2sq_k) in
  let db := sqlite3_create_function db "distance_cosine_i8" num_params flags
              (call_dense i8_k cos_k) in
  let db := sqlite3_create_function db "distance_inner_i8" num_params flags
              (call_dense i8_k ip_k) in
  let db := sqlite3_create_function db "distance_divergence_i8" num_params flags
              (call_dense i8_k divergence_k) in
  db.

(** The host's choice of a function for a call by name with [argc]
    arguments: a registration of that name taking [argc] parameters, or
    any number. *)
Definition accepts (r : registration) (argc : Z) : bool :=
  (nArg r =? argc) || (nArg r =? -1).

Definition find_function (db : list registration) (name : string) (argc : Z)
    : option registration :=
  find (fun r => String.eqb (zFunctionName r) name && accepts r argc) db.

(** How the names of the dense functions spell their template arguments. *)
Definition metric_name (mk : metric_kind_t) : string :=
  match mk with
  | l2sq_k => "sqeuclidean"
  | cos_k => "cosine"
  | ip_k => "inner"
  | hamming_k => "hamming"
  | jaccard_k => "jaccard"
  | divergence_k => "divergence"
  | haversine_k => "haversine"
  end.

Definition scalar_name (sk : scalar_kind_t) : string :=
  match sk with
  | b1x8_k => "binary"
  | i8_k => "i8"
  | f16_k => "f16"
  | f32_k => "f32"
  | f64_k => "f64"
  end.

Definition dense_name (sk : scalar_kind_t) (mk : metric_kind_t) : string :=
  ("distance_" ++ metric_name mk ++ "_" ++ scalar_name sk)%string.

(** A registration as the file means it: the name spells the callback, only
    the edit distance has a fixed number of parameters and a destructor. *)
Definition registered_as_named (r : registration) : bool :=
  match xFunc r with
  | call_haversine_meters =>
      String.eqb (zFunctionName r) "distance_haversine_meters"
      && (nArg r =? -1) && negb (xDestroy r)
  | call_levenshtein =>
      String.eqb (zFunctionName r) "distance_levenshtein"
      && (nArg r =? 2) && xDestroy r
  | call_dense sk mk =>
      String.eqb (zFunctionName r) (dense_name sk mk)
      && (nArg r =? -1) && negb (xDestroy r)
  end.

(** No name twice. *)
Fixpoint distinct (names : list string) : bool :=
  match names with
  | [] => true
  | x :: rest => negb (existsb (String.eqb x) rest) && distinct rest
  end.

(** ** The Postgres utility [copytext] *)

(** A detoasted [text] datum as [PG_GETARG_TEXT_PP] hands it over: data
    bytes behind a header that is one byte ([VARHDRSZ_SHORT]) or four
    ([VARHDRSZ]) long. *)
Inductive varlena_header : Set := header_short | header_full.

Record text : Type := mk_text {
  vl_header : varlena_header;
  vl_dat : list Byte.byte
}.

Definition VARHDRSZ : Z := 4.
Definition VARHDRSZ_SHORT : Z := 1.

(** "The size of the struct in bytes". *)
Definition VARSIZE_ANY (t : text) : Z :=
  match vl_header t with
  | header_short => VARHDRSZ_SHORT + Z.of_nat (List.length (vl_dat t))
  | header_full => VARHDRSZ + Z.of_nat (List.length (vl_dat t))
  end.

(** "... minus the VARHDRSZ or VARHDRSZ_SHORT of its header". *)
Definition VARSIZE_ANY_EXHDR (t : text) : Z :=
  match vl_header t with
  | header_short => VARSIZE_ANY t - VARHDRSZ_SHORT
  | header_full => VARSIZE_ANY t - VARHDRSZ
  end.

Definition VARDATA_ANY (t : text) : list Byte.byte := vl_dat t.

(** Allocated memory: each byte written or not yet. *)
Definition chunk : Type := list (option Byte.byte).

(** [palloc(size)]: [size] bytes, none written. *)
Definition palloc (size : Z) : chunk := repeat None (Z.to_nat size).

(** Writing [src] into a chunk from offset [at]; bytes that would fall
    behind the chunk's end are appended, so that a write out of bounds
    shows in the length. *)
Definition write_bytes (at_offset : nat) (src : list Byte.byte) (m : chunk) : chunk :=
  firstn at_offset m ++ map Some src ++ skipn (at_offset + List.length src) m.

(** [memcpy(dst + at_offset, src, n)]. *)
Definition memcpy (at_offset : nat) (src : list Byte.byte) (n : nat) (m : chunk) : chunk :=
  write_bytes at_offset (firstn n src) m.

Section Copytext.

(** The four bytes [SET_VARSIZE] stores for a length; their layout is the
    host's. *)
Variable length_word : Z -> list Byte.byte.

(** [SET_VARSIZE(new_t, len)]. *)
Definition SET_VARSIZE (len : Z) (m : chunk) : chunk :=
  write_bytes 0 (length_word len) m.

(** [copytext(t)]: the chunk behind the returned pointer. *)
Definition copytext (t : text) : chunk :=
  let new_t := palloc (VARSIZE_ANY_EXHDR t + VARHDRSZ) in
  let new_t := SET_VARSIZE (VARSIZE_ANY_EXHDR t + VARHDRSZ) new_t in
  memcpy (Z.to_nat VARHDRSZ) (VARDATA_ANY t) (Z.to_nat (VARSIZE_ANY_EXHDR t)) new_t.

End Copytext.

(** A length word in the manner of a little-endian host: the length shifted
    left by two, low byte first. *)
Definition byte_of_Z (z : Z) : Byte.byte :=
  match Byte.of_N (Z.to_N (z mod 256)) with
  | Some b => b
  | None => Byte.x00
  end.

Definition shifted_length_word (len : Z) : list Byte.byte :=
  let w := Z.shiftl len 2 in
  [byte_of_Z w; byte_of_Z (Z.shiftr w 8); byte_of_Z (Z.shiftr w 16); byte_of_Z (Z.shiftr w 24)].

(** ** The frame of a call *)





(** The largest scratch size a list of calls asks for; 0 if none asks. *)
Definition largest_request (memory_needed : Z -> Z -> Z)
    (argvs : list (list sqlite3_value)) : Z :=
  fold_left
    (fun size argv =>
       match requested memory_needed argv with
       | Some n => Z.max size n
       | None => size
       end)
    argvs 0.

(** * Properties of the dense distance functions *)

Section DenseFacts.

Variable from_chars : scalar_kind_t -> string -> option (float * nat).
Variable metric : Z -> metric_kind_t -> scalar_kind_t -> buffer -> buffer -> float.
Variable distance_kind : scalar_kind_t.

Local Abbreviation export := (sqlite_dense_export from_chars metric).

Lemma two_stack_arrays (n : Z) : only_stack_arrays [ev_stack_array n; ev_stack_array n].
Proof. repeat constructor. Qed.

Lemma export_blobs_outcome sk mk a0 a1 st :
  export_outcome metric mk st (export_blobs metric sk mk a0 a1 st).
Proof.
  unfold export_blobs.
  destruct (negb (sqlite3_value_bytes a0 =? sqlite3_value_bytes a1)).
  - apply export_failed with (msg := different_dimensions) (pre := []).
    + constructor.
    + unfold set_error. now rewrite app_nil_r.
  - eapply export_computed with (pre := []).
    + constructor.
    + reflexivity.
Qed.

Lemma export_texts_outcome sk mk a0 a1 st :
  export_outcome metric mk st (export_texts from_chars metric sk mk a0 a1 st).
Proof.
  unfold export_texts.
  destruct (negb _).
  - apply export_failed with (msg := different_dimensions) (pre := []).
    + constructor.
    + unfold set_error. now rewrite app_nil_r.
  - set (d := sz_count_char (sqlite3_value_text a0) "," + 1).
    destruct (parse_texts _ _ _ _ _) as [[parsed1 parsed2]|].
    + eapply export_computed with (pre := [ev_stack_array d; ev_stack_array d]).
      * apply two_stack_arrays.
      * unfold compute_distance, set_distance, record_event; cbn.
        now rewrite <- !app_assoc.
    + apply export_failed with (msg := cannot_parse)
                               (pre := [ev_stack_array d; ev_stack_array d]).
      * apply two_stack_arrays.
      * unfold set_error, record_event; cbn. now rewrite <- !app_assoc.
Qed.

Lemma export_columns_outcome sk mk argv st :
  export_outcome metric mk st (export_columns metric sk mk argv st).
Proof.
  unfold export_columns.
  set (d := Z.quot (Z.of_nat (List.length argv)) 2).
  destruct (parse_columns _ _ _ _ _) as [[parsed1 parsed2]|].
  - eapply export_computed with (pre := [ev_stack_array d; ev_stack_array d]).
    + apply two_stack_arrays.
    + unfold compute_distance, set_distance, record_event; cbn.
      now rewrite <- !app_assoc.
  - apply export_failed with (msg := unsupported_column)
                             (pre := [ev_stack_array d; ev_stack_array d]).
    + apply two_stack_arrays.
    + unfold set_error, record_event; cbn. now rewrite <- !app_assoc.
Qed.

Lemma set_error_outcome mk msg st : export_outcome metric mk st (set_error msg st).
Proof.
  apply export_failed with (msg := msg) (pre := []).
  - constructor.
  - unfold set_error. now rewrite app_nil_r.
Qed.

(** The chain of tests, read off as the branch it selects. *)
Lemma sqlite_dense_export_by_branch sk mk argv st :
  export sk mk argv st =
  match selected_branch argv with
  | branch_too_few => set_error too_few_arguments st
  | branch_blobs => export_blobs metric sk mk (nth 0 argv value_null) (nth 1 argv value_null) st
  | branch_texts =>
      export_texts from_chars metric sk mk (nth 0 argv value_null) (nth 1 argv value_null) st
  | branch_columns => export_columns metric sk mk argv st
  | branch_unsupported => set_error not_divisible st
  end.
Proof.
  unfold sqlite_dense_export, selected_branch, two_blobs, two_texts.
  destruct (Z.of_nat (List.length argv) <? 2); [reflexivity|].
  destruct (_ && _ && _); [reflexivity|].
  destruct (_ && _ && _); [reflexivity|].
  destruct (Z.rem _ 2 =? 0); reflexivity.
Qed.

Lemma sqlite_dense_export_outcome sk mk argv st :
  export_outcome metric mk st (export sk mk argv st).
Proof.
  rewrite sqlite_dense_export_by_branch.
  destruct (selected_branch argv).
  - apply set_error_outcome.
  - apply export_blobs_outcome.
  - apply export_texts_outcome.
  - apply export_columns_outcome.
  - apply set_error_outcome.
Qed.

Lemma only_stack_arrays_no_metric pre :
  only_stack_arrays pre -> filter is_metric pre = [].
Proof.
  induction 1 as [|e pre He _ IH]; [reflexivity|].
  destruct e; try discriminate He. exact IH.
Qed.

Lemma only_stack_arrays_no_result pre :
  only_stack_arrays pre -> filter is_result pre = [].
Proof.
  induction 1 as [|e pre He _ IH]; [reflexivity|].
  destruct e; try discriminate He. exact IH.
Qed.


Lemma of_nat_eqb (n m : nat) : (Z.of_nat n =? Z.of_nat m) = Nat.eqb n m.
Proof.
  destruct (Nat.eqb_spec n m) as [->|Hne].
  - apply Z.eqb_refl.
  - apply Z.eqb_neq. lia.
Qed.

Lemma rem_2_even (z : Z) : 0 <= z -> (Z.rem z 2 =? 0) = Z.even z.
Proof.
  intros Hz. rewrite Z.rem_mod_nonneg by lia. rewrite Zmod_even.
  destruct (Z.even z); reflexivity.
Qed.

(** C2.  Two blobs of unequal byte length, or two texts with unequal comma
    counts: every dense distance function, and the haversine-in-meters
    function, makes exactly one call, the host's error result with the
    message "Vectors have different number of dimensions" (a MalformedInput
    message); no metric is invoked and no number is returned. *)
Theorem unequal_dimensions_fail sk mk a0 a1 :
  unequal_dimension a0 a1 = true ->
  sqlite_dense from_chars metric sk mk [a0; a1]
    = [ev_result_error "Vectors have different number of dimensions"]
  /\ sqlite_haversine_meters from_chars metric distance_kind [a0; a1]
    = [ev_result_error "Vectors have different number of dimensions"]
  /\ error_kind "Vectors have different number of dimensions" = Some MalformedInput.
Proof.
  intros Hne.
  assert (Hexp : forall sk' mk',
             export sk' mk' [a0; a1] export_start
             = set_error different_dimensions export_start).
  { intros sk' mk'. rewrite sqlite_dense_export_by_branch.
    destruct a0 as [| |s1|b1|], a1 as [| |s2|b2|]; try discriminate Hne;
      cbn in Hne |- *.
    - unfold export_texts; cbn. now rewrite Hne.
    - unfold export_blobs; cbn. now rewrite of_nat_eqb, Hne. }
  unfold sqlite_dense, sqlite_haversine_meters. rewrite !Hexp.
  repeat split.
Qed.

(** C1, as the code has it.  The call runs the branch its chain of tests
    selects, blobs before texts before columns, so two blobs and two texts
    never reach the column branch (and never end in its column-type
    message).  The column branch is selected exactly when
    there are at least two arguments, their count is even, and the call is
    neither two blobs nor two texts: two is enough, four is not needed.  A
    two-argument call that is neither is a column tuple of dimension 1: it
    computes a distance when both arguments are numbers or NULL and stops
    with the column-type message otherwise.  Fewer than two arguments stop
    with the argument-count message, an odd count of three or more with the
    divisibility message; whenever a message is set, no metric was
    invoked. *)
Theorem column_tuple_selection sk mk argv st :
  let argc := Z.of_nat (List.length argv) in
  (selected_branch argv = branch_columns <->
     2 <= argc /\ Z.even argc = true /\ two_blobs argv = false /\ two_texts argv = false)
  /\ (selected_branch argv = branch_columns ->
        export sk mk argv st = export_columns metric sk mk argv st)
  /\ (forall a0 a1,
        argv = [a0; a1] -> two_blobs argv = false -> two_texts argv = false ->
        let parsed := parsed_scalar_kind_gt sk in
        let st' := record_event (ev_stack_array 1) (record_event (ev_stack_array 1) st) in
        export sk mk argv st =
        match coerce parsed a0, coerce parsed a1 with
        | Some x, Some y => compute_distance metric 1 mk parsed (scalars [x]) (scalars [y]) st'
        | _, _ =>
            set_error "Scalar columns may only contain 32-bit integers, floats, or NULLs." st'
        end)
  /\ (argc < 2 ->
        export sk mk argv st
        = set_error "Distance function expects at least two arguments" st)
  /\ (2 <= argc -> Z.odd argc = true ->
        export sk mk argv st
        = set_error "Number of columns in two vectors must be divisible by two" st)
  /\ (error_message_out (export sk mk argv export_start) <> None ->
        filter is_metric (events (export sk mk argv export_start)) = [])
  /\ error_kind "Distance function expects at least two arguments" = Some ArgumentCountError
  /\ error_kind "Number of columns in two vectors must be divisible by two"
     = Some MalformedInput
  /\ export sk mk argv st =
     match selected_branch argv with
     | branch_too_few => set_error "Distance function expects at least two arguments" st
     | branch_blobs =>
         export_blobs metric sk mk (nth 0 argv value_null) (nth 1 argv value_null) st
     | branch_texts =>
         export_texts from_chars metric sk mk (nth 0 argv value_null) (nth 1 argv value_null) st
     | branch_columns => export_columns metric sk mk argv st
     | branch_unsupported =>
         set_error "Number of columns in two vectors must be divisible by two" st
     end
  /\ (two_blobs argv = true ->
      selected_branch argv = branch_blobs
      /\ export sk mk argv st
         = export_blobs metric sk mk (nth 0 argv value_null) (nth 1 argv value_null) st
      /\ error_message_out (export sk mk argv export_start)
         <> Some "Scalar columns may only contain 32-bit integers, floats, or NULLs."
      /\ stack_array_sizes (events (export sk mk argv export_start)) = [])
  /\ (two_texts argv = true ->
      selected_branch argv = branch_texts
      /\ export sk mk argv st
         = export_texts from_chars metric sk mk (nth 0 argv value_null)
             (nth 1 argv value_null) st
      /\ error_message_out (export sk mk argv export_start)
         <> Some "Scalar columns may only contain 32-bit integers, floats, or NULLs.").
Proof.
  cbv zeta.
  assert (Hbranch : selected_branch argv = branch_columns <->
                    2 <= Z.of_nat (List.length argv)
                    /\ Z.even (Z.of_nat (List.length argv)) = true
                    /\ two_blobs argv = false /\ two_texts argv = false).
  { unfold selected_branch. rewrite rem_2_even by lia.
    destruct (Z.ltb_spec (Z.of_nat (List.length argv)) 2) as [Hlt|Hge].
    - split; [discriminate|]. intros (H & _). lia.
    - destruct (two_blobs argv); [split; [discriminate|intros (_ & _ & H & _); discriminate]|].
      destruct (two_texts argv); [split; [discriminate|intros (_ & _ & _ & H); discriminate]|].
      destruct (Z.even _); split; try discriminate; auto.
      intros (_ & H & _); discriminate. }
  split; [exact Hbranch|].
  split; [intros H; rewrite sqlite_dense_export_by_branch, H; reflexivity|].
  split.
  { intros a0 a1 -> Hb Ht.
    assert (Hsel : selected_branch [a0; a1] = branch_columns).
    { apply Hbranch. repeat split; trivial. cbn. lia. }
    rewrite sqlite_dense_export_by_branch, Hsel.
    unfold export_columns; cbn.
    destruct a0, a1; try reflexivity;
      destruct sk; reflexivity. }
  split.
  { intros Hlt. unfold sqlite_dense_export.
    destruct (Z.ltb_spec (Z.of_nat (List.length argv)) 2); [reflexivity|lia]. }
  split.
  { intros Hge Hodd. rewrite sqlite_dense_export_by_branch.
    unfold selected_branch, two_blobs, two_texts. rewrite rem_2_even by lia.
    rewrite <- Z.negb_odd, Hodd.
    destruct (Z.ltb_spec (Z.of_nat (List.length argv)) 2); [lia|].
    destruct (Z.eqb_spec (Z.of_nat (List.length argv)) 2) as [E|_]; [|reflexivity].
    rewrite E in Hodd. discriminate Hodd. }
  split.
  { intros Herr.
    destruct (sqlite_dense_export_outcome sk mk argv export_start)
      as [msg pre Hpre ->|pre dimensions sk' a b Hpre E]; cbn.
    - now apply only_stack_arrays_no_metric.
    - rewrite E in Herr. now contradiction Herr. }
  split; [reflexivity|]. split; [reflexivity|].
  split; [apply sqlite_dense_export_by_branch|].
  assert (Hge : two_blobs argv = true \/ two_texts argv = true ->
                (Z.of_nat (List.length argv) <? 2) = false).
  { unfold two_blobs, two_texts.
    destruct (Z.eqb_spec (Z.of_nat (List.length argv)) 2) as [E|_].
    - intros _. rewrite E. reflexivity.
    - cbn. intros [H|H]; discriminate H. }
  split.
  - intros Hb.
    assert (Hsel : selected_branch argv = branch_blobs).
    { unfold selected_branch. now rewrite (Hge (or_introl Hb)), Hb. }
    split; [exact Hsel|].
    split; [now rewrite sqlite_dense_export_by_branch, Hsel|].
    rewrite sqlite_dense_export_by_branch, Hsel. unfold export_blobs. cbv zeta.
    destruct (negb _); split; try discriminate; reflexivity.
  - intros Ht.
    assert (Hsel : selected_branch argv = branch_texts).
    { unfold selected_branch. rewrite (Hge (or_intror Ht)), Ht.
      destruct (two_blobs argv) eqn:Hb; [|reflexivity].
      unfold two_blobs, two_texts in Hb, Ht.
      destruct (sqlite3_value_type (nth 0 argv value_null) =? SQLITE_BLOB) eqn:E0;
        [|rewrite andb_false_r in Hb; discriminate Hb].
      apply Z.eqb_eq in E0. rewrite E0 in Ht.
      rewrite andb_false_r in Ht. discriminate Ht. }
    split; [exact Hsel|].
    split; [now rewrite sqlite_dense_export_by_branch, Hsel|].
    rewrite sqlite_dense_export_by_branch, Hsel. unfold export_texts. cbv zeta.
    destruct (negb _); [discriminate|].
    destruct (parse_texts _ _ _ _ _) as [[p1 p2]|]; discriminate.
Qed.

End DenseFacts.

(** * The vectors that reach the metric *)

Section VectorFacts.

Variable from_chars : scalar_kind_t -> string -> option (float * nat).
Variable metric : Z -> metric_kind_t -> scalar_kind_t -> buffer -> buffer -> float.

Local Abbreviation export := (sqlite_dense_export from_chars metric).

(** The [switch] on the value's type code is the case analysis on the
    value. *)
Lemma column_scalar_coerce parsed v : column_scalar parsed v = coerce parsed v.
Proof. destruct v; try reflexivity. destruct parsed; reflexivity. Qed.

Lemma skipn_nth {A : Type} (d : A) (l : list A) (i : nat) :
  (i < List.length l)%nat -> skipn i l = nth i l d :: skipn (S i) l.
Proof.
  revert i. induction l as [|x l IH]; intros i Hi; cbn in Hi.
  - lia.
  - destruct i as [|i]; [reflexivity|].
    cbn [skipn nth]. apply IH. lia.
Qed.

(** The column loop walks the two halves in step. *)
Lemma parse_columns_halves parsed (left right : list sqlite3_value) (n i : nat) :
  List.length left = List.length right ->
  (i + n = List.length left)%nat ->
  parse_columns parsed (left ++ right) (List.length left) n i =
  match all_some (map (coerce parsed) (skipn i left)),
        all_some (map (coerce parsed) (skipn i right)) with
  | Some parsed1, Some parsed2 => Some (parsed1, parsed2)
  | _, _ => None
  end.
Proof.
  intros Hlen. revert i. induction n as [|n IH]; intros i Hi.
  - cbn. rewrite !skipn_all2 by lia. reflexivity.
  - cbn [parse_columns].
    rewrite (skipn_nth value_null left i) by lia.
    rewrite (skipn_nth value_null right i) by lia.
    rewrite app_nth1 by lia.
    rewrite app_nth2_plus.
    rewrite !column_scalar_coerce. cbn [map all_some].
    rewrite IH by lia.
    destruct (coerce parsed (nth i left value_null)) as [x1|];
      destruct (coerce parsed (nth i right value_null)) as [x2|];
      destruct (all_some (map (coerce parsed) (skipn (S i) left)));
      destruct (all_some (map (coerce parsed) (skipn (S i) right)));
      reflexivity.
Qed.

Lemma half_of_doubled (left right : list sqlite3_value) :
  List.length left = List.length right ->
  Z.quot (Z.of_nat (List.length (left ++ right))) 2 = Z.of_nat (List.length left).
Proof.
  intros Hlen. rewrite length_app, <- Hlen.
  replace (Z.of_nat (List.length left + List.length left))
    with (Z.of_nat (List.length left) * 2) by lia.
  apply Z.quot_mul. lia.
Qed.

Lemma int32_wrap_in_range (i : Z) : - 2 ^ 31 <= i < 2 ^ 31 -> int32_wrap i = i.
Proof.
  intros Hi. unfold int32_wrap. rewrite Z.mod_small; lia.
Qed.

(** The column branch on two halves of equal length. *)
Lemma export_columns_halves sk mk (left right : list sqlite3_value) st :
  List.length left = List.length right ->
  let parsed := parsed_scalar_kind_gt sk in
  let dimensions := Z.of_nat (List.length left) in
  let st' := record_event (ev_stack_array dimensions)
               (record_event (ev_stack_array dimensions) st) in
  export_columns metric sk mk (left ++ right) st =
    match all_some (map (coerce parsed) left), all_some (map (coerce parsed) right) with
    | Some parsed1, Some parsed2 =>
        compute_distance metric dimensions mk parsed (scalars parsed1) (scalars parsed2) st'
    | _, _ => set_error unsupported_column st'
    end.
Proof.
  intros Hlen. cbv zeta.
  unfold export_columns. rewrite (half_of_doubled left right Hlen), Nat2Z.id.
  rewrite (parse_columns_halves _ left right _ O Hlen) by lia.
  cbn [skipn].
  destruct (all_some (map (coerce (parsed_scalar_kind_gt sk)) left));
    destruct (all_some (map (coerce (parsed_scalar_kind_gt sk)) right)); reflexivity.
Qed.

(** A column call splits into two halves of half the argument count. *)
Lemma columns_split (argv : list sqlite3_value) :
  selected_branch argv = branch_columns ->
  let dimensions := Z.to_nat (Z.quot (Z.of_nat (List.length argv)) 2) in
  List.length (firstn dimensions argv) = dimensions
  /\ List.length (skipn dimensions argv) = dimensions.
Proof.
  unfold selected_branch.
  destruct (Z.ltb_spec (Z.of_nat (List.length argv)) 2) as [|Hge]; [discriminate|].
  destruct (two_blobs argv); [discriminate|].
  destruct (two_texts argv); [discriminate|].
  destruct (Z.eqb_spec (Z.rem (Z.of_nat (List.length argv)) 2) 0) as [Hrem|];
    [|discriminate].
  intros _. cbv zeta.
  pose proof (Z.quot_rem' (Z.of_nat (List.length argv)) 2) as Hdiv.
  rewrite Hrem in Hdiv.
  rewrite length_firstn, length_skipn. lia.
Qed.

(** C7, as the code has it.  In a column call the argument list is two
    halves of half the argument count, and every argument is coerced on its
    own into the working scalar type (binary64 for the f64 functions,
    binary32 for all others): a float is converted from [double] (unchanged
    for binary64), an integer is read through the host's 32-bit accessor and
    converted (so an integer of the signed 32-bit range is widened as it
    is), a NULL is 0.  If every argument is one of these the metric gets the
    two coerced halves; if any is a text or a blob the call stops with the
    column-type message (an UnsupportedType message) after the two array
    declarations, and no metric is invoked. *)
Theorem columns_are_coerced sk mk (argv : list sqlite3_value) st :
  selected_branch argv = branch_columns ->
  let parsed := parsed_scalar_kind_gt sk in
  let dimensions := Z.quot (Z.of_nat (List.length argv)) 2 in
  let left := firstn (Z.to_nat dimensions) argv in
  let right := skipn (Z.to_nat dimensions) argv in
  let st' := record_event (ev_stack_array dimensions)
               (record_event (ev_stack_array dimensions) st) in
  (argv = left ++ right
   /\ Z.of_nat (List.length left) = dimensions
   /\ Z.of_nat (List.length right) = dimensions)
  /\ export sk mk argv st =
     match all_some (map (coerce parsed) left), all_some (map (coerce parsed) right) with
     | Some parsed1, Some parsed2 =>
         compute_distance metric dimensions mk parsed (scalars parsed1) (scalars parsed2) st'
     | _, _ =>
         set_error "Scalar columns may only contain 32-bit integers, floats, or NULLs." st'
     end
  /\ (forall d, coerce f64_k (value_float d) = Some d)
  /\ (forall d, coerce parsed (value_float d) = Some (scalar_of_double parsed d))
  /\ (forall i, coerce parsed (value_integer i) = Some (scalar_of_int parsed (int32_wrap i)))
  /\ (forall i, - 2 ^ 31 <= i < 2 ^ 31 ->
                coerce parsed (value_integer i) = Some (scalar_of_int parsed i))
  /\ coerce parsed value_null = Some 0%float
  /\ (forall s, coerce parsed (value_text s) = None)
  /\ (forall b, coerce parsed (value_blob b) = None)
  /\ error_kind "Scalar columns may only contain 32-bit integers, floats, or NULLs."
     = Some UnsupportedType.
Proof.
  intros Hsel. cbv zeta.
  destruct (columns_split argv Hsel) as [Hleft Hright].
  set (d := Z.to_nat (Z.quot (Z.of_nat (List.length argv)) 2)) in *.
  assert (Hd : Z.of_nat d = Z.quot (Z.of_nat (List.length argv)) 2).
  { subst d. apply Z2Nat.id. apply Z.quot_pos; lia. }
  split; [|split].
  - split; [symmetry; apply firstn_skipn|]. split; congruence.
  - rewrite sqlite_dense_export_by_branch, Hsel.
    rewrite <- (firstn_skipn d argv) at 1.
    rewrite export_columns_halves by congruence.
    cbv zeta. rewrite Hleft, Hd. reflexivity.
  - repeat split; try reflexivity.
    intros i Hi. cbn. now rewrite int32_wrap_in_range.
Qed.

(** The array declarations of a call, by branch. *)
Lemma stack_arrays_of_export sk mk argv :
  stack_array_sizes (events (export sk mk argv export_start)) =
  match selected_branch argv with
  | branch_texts =>
      let commas1 := sz_count_char (sqlite3_value_text (nth 0 argv value_null)) "," in
      let commas2 := sz_count_char (sqlite3_value_text (nth 1 argv value_null)) "," in
      if commas1 =? commas2 then [commas1 + 1; commas1 + 1] else []
  | branch_columns =>
      let argc := Z.of_nat (List.length argv) in
      [Z.quot argc 2; Z.quot argc 2]
  | _ => []
  end.
Proof.
  rewrite sqlite_dense_export_by_branch.
  destruct (selected_branch argv); try reflexivity.
  - unfold export_blobs. destruct (negb _); reflexivity.
  - unfold export_texts. cbv zeta. destruct (_ =? _); cbn [negb]; [|reflexivity].
    destruct (parse_texts _ _ _ _ _) as [[p1 p2]|]; reflexivity.
  - unfold export_columns.
    destruct (parse_columns _ _ _ _ _) as [[p1 p2]|]; reflexivity.
Qed.

Lemma sz_count_char_bounds (s : string) (c : ascii) :
  0 <= sz_count_char s c <= Z.of_nat (String.length s).
Proof.
  induction s as [|x s IH]; cbn [sz_count_char String.length]; [lia|].
  destruct (Ascii.eqb x c); lia.
Qed.

(** C9, as the code has it.  The working arrays are two arrays declared in
    the call's own frame, each of exactly the inferred dimension: commas + 1
    in the text branch (declared once the comma counts agree), half the
    argument count in the column branch; the other branches declare none.
    The dimension is at least 1 and at most the first text's byte length
    plus one, resp. half the argument count: it is limited by the size of
    the caller's input and by nothing else. *)
Theorem working_arrays_follow_the_input sk mk argv :
  let sizes := stack_array_sizes (events (export sk mk argv export_start)) in
  let argc := Z.of_nat (List.length argv) in
  let bytes1 := sqlite3_value_bytes (nth 0 argv value_null) in
  let commas1 := sz_count_char (sqlite3_value_text (nth 0 argv value_null)) "," in
  (sizes = [] \/ sizes = [commas1 + 1; commas1 + 1] \/ sizes = [Z.quot argc 2; Z.quot argc 2])
  /\ (selected_branch argv = branch_columns -> sizes = [Z.quot argc 2; Z.quot argc 2])
  /\ (selected_branch argv = branch_texts ->
      sizes = [commas1 + 1; commas1 + 1] /\ 1 <= commas1 + 1 <= bytes1 + 1
      \/ sizes = [] /\
         error_message_out (export sk mk argv export_start)
         = Some "Vectors have different number of dimensions")
  /\ Forall (fun n => 1 <= n <= Z.max (bytes1 + 1) (Z.quot argc 2)) sizes.
Proof.
  cbv zeta. rewrite stack_arrays_of_export.
  pose proof (sz_count_char_bounds (sqlite3_value_text (nth 0 argv value_null)) ",") as Hc.
  assert (Hb : selected_branch argv = branch_texts ->
               Z.of_nat (String.length (sqlite3_value_text (nth 0 argv value_null)))
               = sqlite3_value_bytes (nth 0 argv value_null)).
  { unfold selected_branch, two_texts.
    destruct (_ <? 2); [discriminate|]. destruct (two_blobs argv); [discriminate|].
    destruct (nth 0 argv value_null); cbn; try rewrite !andb_false_r;
      try reflexivity; destruct (Z.rem _ 2 =? 0); discriminate. }
  assert (Hq : selected_branch argv = branch_columns ->
               1 <= Z.quot (Z.of_nat (List.length argv)) 2).
  { unfold selected_branch. destruct (Z.ltb_spec (Z.of_nat (List.length argv)) 2);
      [discriminate|]. intros _.
    apply Z.quot_le_lower_bound; lia. }
  rewrite sqlite_dense_export_by_branch.
  destruct (selected_branch argv) eqn:Hsel; cbv zeta.
  - repeat split; try discriminate; auto.
  - repeat split; try discriminate; auto.
  - (* texts *)
    specialize (Hb eq_refl). unfold export_texts. cbv zeta.
    destruct (_ =? _); cbn [negb].
    + split; [auto|]. split; [discriminate|]. split.
      * intros _. left. split; [reflexivity|lia].
      * repeat constructor; lia.
    + split; [auto|]. split; [discriminate|]. split.
      * intros _. right. split; reflexivity.
      * constructor.
  - (* columns *)
    specialize (Hq eq_refl).
    split; [auto|]. split; [reflexivity|]. split; [discriminate|].
    repeat constructor; lia.
  - repeat split; try discriminate; auto.
Qed.

End VectorFacts.

(** * Delimited text and the haversine function *)

Section TextFacts.

Variable from_chars : scalar_kind_t -> string -> option (float * nat).
Variable metric : Z -> metric_kind_t -> scalar_kind_t -> buffer -> buffer -> float.

Local Abbreviation export := (sqlite_dense_export from_chars metric).

Lemma skip_spaces_close (b : bool) (s : string) :
  skip_spaces (close_bracket b s) = close_bracket b (skip_spaces s).
Proof.
  destruct b; [|reflexivity]. cbn [close_bracket].
  induction s as [|x s IH]; [reflexivity|].
  cbn [append skip_spaces]. destruct (Ascii.eqb x " "); [exact IH|reflexivity].
Qed.

Lemma skip_spaces_and_commas_close (b : bool) (s : string) :
  skip_spaces_and_commas (close_bracket b s) = close_bracket b (skip_spaces_and_commas s).
Proof.
  destruct b; [|reflexivity]. cbn [close_bracket].
  induction s as [|x s IH]; [reflexivity|].
  cbn [append skip_spaces_and_commas].
  destruct (Ascii.eqb x " " || Ascii.eqb x ","); [exact IH|reflexivity].
Qed.

Lemma advance_close (b : bool) (k : nat) (s : string) :
  (k <= String.length s)%nat ->
  advance k (close_bracket b s) = close_bracket b (advance k s).
Proof.
  destruct b; [|reflexivity]. cbn [close_bracket].
  revert s. induction k as [|k IH]; intros s Hk; [reflexivity|].
  destruct s as [|x s]; cbn in Hk; [lia|].
  cbn [append advance]. apply IH. lia.
Qed.

Lemma sz_count_char_close (b : bool) (s : string) :
  sz_count_char (close_bracket b s) "," = sz_count_char s ",".
Proof.
  destruct b; [|reflexivity]. cbn [close_bracket].
  induction s as [|x s IH]; [reflexivity|].
  cbn [append sz_count_char]. now rewrite IH.
Qed.

Section WellBehavedParser.

(** The parser reads inside the characters it is given, and a closing
    bracket after them changes nothing of what it reads. *)
Hypothesis reads_within :
  forall k s v n, from_chars k s = Some (v, n) -> (n <= String.length s)%nat.
Hypothesis ignores_closing_bracket :
  forall k s, from_chars k (s ++ "]")%string = from_chars k s.

Lemma from_chars_close (b : bool) k (s : string) :
  from_chars k (close_bracket b s) = from_chars k s.
Proof. destruct b; [apply ignores_closing_bracket|reflexivity]. Qed.

(** The loop never looks at a closing bracket left at the end. *)
Lemma parse_texts_close parsed (n : nat) (b1 b2 : bool) (vec1 vec2 : string) :
  parse_texts from_chars parsed n (close_bracket b1 vec1) (close_bracket b2 vec2)
  = parse_texts from_chars parsed n vec1 vec2.
Proof.
  revert vec1 vec2. induction n as [|n IH]; intros vec1 vec2; [reflexivity|].
  cbn [parse_texts]. cbv zeta.
  rewrite !skip_spaces_close, !from_chars_close.
  destruct (from_chars parsed (skip_spaces vec1)) as [[x1 k1]|] eqn:E1; [|reflexivity].
  destruct (from_chars parsed (skip_spaces vec2)) as [[x2 k2]|] eqn:E2; [|reflexivity].
  rewrite !advance_close by eauto.
  rewrite !skip_spaces_and_commas_close, IH. reflexivity.
Qed.

End WellBehavedParser.

Lemma strip_bracket_open (s : string) : strip_bracket (String "[" s) = s.
Proof. reflexivity. Qed.

(** The text branch sees a string only through its comma count and what is
    left after the leading bracket. *)
Lemma export_texts_congruence sk mk (s1 s2 t1 t2 : string) st :
  sz_count_char s1 "," = sz_count_char t1 "," ->
  sz_count_char s2 "," = sz_count_char t2 "," ->
  (forall n, parse_texts from_chars (parsed_scalar_kind_gt sk) n
               (strip_bracket s1) (strip_bracket s2)
           = parse_texts from_chars (parsed_scalar_kind_gt sk) n
               (strip_bracket t1) (strip_bracket t2)) ->
  export sk mk [value_text s1; value_text s2] st
  = export sk mk [value_text t1; value_text t2] st.
Proof.
  intros H1 H2 Hp. rewrite !sqlite_dense_export_by_branch.
  cbn. unfold export_texts. cbn [sqlite3_value_text]. cbv zeta.
  rewrite H1, H2, Hp. reflexivity.
Qed.

(** C5.  For texts written without a leading bracket: putting an opening
    bracket in front of either or both leaves the comma count, and so the
    dimension, as it was, the bracket is dropped before any numeral is read,
    and the whole outcome of the call (the two parsed vectors handed to the
    metric, the distance, or the error) is the outcome for the bare texts.
    With a number parser that reads inside its input and is blind to a
    closing bracket behind it, the same holds for texts wrapped in both
    brackets: "[1,2,3]" and "1,2,3" give the same vectors. *)
Theorem brackets_are_optional sk mk (s1 s2 : string) st :
  strip_bracket s1 = s1 ->
  strip_bracket s2 = s2 ->
  let bare := export sk mk [value_text s1; value_text s2] st in
  sz_count_char ("[" ++ s1)%string "," = sz_count_char s1 ","
  /\ strip_bracket ("[" ++ s1)%string = s1
  /\ export sk mk [value_text ("[" ++ s1)%string; value_text ("[" ++ s2)%string] st = bare
  /\ export sk mk [value_text ("[" ++ s1)%string; value_text s2] st = bare
  /\ export sk mk [value_text s1; value_text ("[" ++ s2)%string] st = bare
  /\ ((forall k s v n, from_chars k s = Some (v, n) -> (n <= String.length s)%nat) ->
      (forall k s, from_chars k (s ++ "]")%string = from_chars k s) ->
      sz_count_char ("[" ++ s1 ++ "]")%string "," = sz_count_char s1 ","
      /\ export sk mk [value_text ("[" ++ s1 ++ "]")%string;
                       value_text ("[" ++ s2 ++ "]")%string] st = bare
      /\ export sk mk [value_text ("[" ++ s1 ++ "]")%string; value_text s2] st = bare
      /\ export sk mk [value_text s1; value_text ("[" ++ s2 ++ "]")%string] st = bare).
Proof.
  intros Hs1 Hs2. cbv zeta.
  split; [reflexivity|]. split; [reflexivity|].
  split; [|split; [|split]].
  - apply export_texts_congruence; try reflexivity.
    intros n. cbn [append]. now rewrite !strip_bracket_open, Hs1, Hs2.
  - apply export_texts_congruence; try reflexivity.
    intros n. cbn [append]. now rewrite !strip_bracket_open, Hs1.
  - apply export_texts_congruence; try reflexivity.
    intros n. cbn [append]. now rewrite !strip_bracket_open, Hs2.
  - intros Hwithin Hblind.
    assert (Hc : forall s, sz_count_char ("[" ++ s ++ "]")%string "," = sz_count_char s ",").
    { intros s. exact (sz_count_char_close true s). }
    split; [apply Hc|]. split; [|split].
    + apply export_texts_congruence; try apply Hc.
      intros n. cbn [append]. rewrite !strip_bracket_open, Hs1, Hs2.
      exact (parse_texts_close Hwithin Hblind _ n true true s1 s2).
    + apply export_texts_congruence; try apply Hc; try reflexivity.
      intros n. cbn [append]. rewrite !strip_bracket_open, Hs1.
      exact (parse_texts_close Hwithin Hblind _ n true false s1 _).
    + apply export_texts_congruence; try apply Hc; try reflexivity.
      intros n. cbn [append]. rewrite !strip_bracket_open, Hs2.
      exact (parse_texts_close Hwithin Hblind _ n false true _ s2).
Qed.

End TextFacts.

Section HaversineFacts.

Variable from_chars : scalar_kind_t -> string -> option (float * nat).
Variable metric : Z -> metric_kind_t -> scalar_kind_t -> buffer -> buffer -> float.
Variable distance_kind : scalar_kind_t.

Local Abbreviation export := (sqlite_dense_export from_chars metric).

(** One text parsed against itself gives the same vector twice. *)
Lemma parse_texts_same parsed (n : nat) (vec : string) parsed1 parsed2 :
  parse_texts from_chars parsed n vec vec = Some (parsed1, parsed2) -> parsed1 = parsed2.
Proof.
  revert vec parsed1 parsed2. induction n as [|n IH]; intros vec parsed1 parsed2.
  - cbn. intros [= <- <-]. reflexivity.
  - cbn [parse_texts]. cbv zeta.
    destruct (from_chars parsed (skip_spaces vec)) as [[x k]|]; [|discriminate].
    destruct (parse_texts _ _ _ _ _) as [[q1 q2]|] eqn:E; [|discriminate].
    intros [= <- <-]. f_equal. eapply IH. exact E.
Qed.

Lemma parse_columns_same parsed (half : list sqlite3_value) parsed1 parsed2 :
  parse_columns parsed (half ++ half) (List.length half) (List.length half) 0
  = Some (parsed1, parsed2) ->
  parsed1 = parsed2.
Proof.
  rewrite (parse_columns_halves parsed half half _ O eq_refl) by lia.
  cbn [skipn].
  destruct (all_some (map (coerce parsed) half)); [|discriminate].
  intros [= <- <-]. reflexivity.
Qed.

Lemma doubled_pair (half : list sqlite3_value) :
  Z.of_nat (List.length (half ++ half)) = 2 -> exists a, half = [a].
Proof.
  rewrite length_app. intros H.
  destruct half as [|a [|b half]]; cbn in H; try lia.
  now exists a.
Qed.

(** The haversine call ends with a message and no metric call, or with one
    call of the f64 haversine metric; identical halves reach it as
    identical buffers. *)
Lemma haversine_export_shape argv :
  (exists msg pre,
      only_stack_arrays pre
      /\ export f64_k haversine_k argv export_start
         = {| distance_out := 0%float; error_message_out := Some msg; events := pre |})
  \/
  (exists pre dimensions a b,
      only_stack_arrays pre
      /\ export f64_k haversine_k argv export_start
         = {| distance_out := metric dimensions haversine_k f64_k a b;
              error_message_out := None;
              events := pre ++ [ev_metric dimensions haversine_k f64_k a b] |}
      /\ (forall half, argv = half ++ half -> a = b)).
Proof.
  rewrite sqlite_dense_export_by_branch.
  destruct (selected_branch argv) eqn:Hsel.
  - left. exists too_few_arguments, []. split; [constructor|reflexivity].
  - (* two blobs *)
    assert (Hargc : Z.of_nat (List.length argv) = 2).
    { unfold selected_branch, two_blobs in Hsel.
      destruct (_ <? 2); [discriminate|].
      destruct (Z.eqb_spec (Z.of_nat (List.length argv)) 2); [assumption|].
      cbn in Hsel. unfold two_texts in Hsel.
      destruct (Z.eqb_spec (Z.of_nat (List.length argv)) 2); [contradiction|].
      cbn in Hsel. destruct (Z.rem _ 2 =? 0); discriminate. }
    unfold export_blobs. cbv zeta.
    destruct (negb _).
    + left. exists different_dimensions, []. split; [constructor|reflexivity].
    + right. eexists [], _, _, _. split; [constructor|]. split; [reflexivity|].
      intros half ->. destruct (doubled_pair half Hargc) as [a ->]. reflexivity.
  - (* two texts *)
    assert (Hargc : Z.of_nat (List.length argv) = 2).
    { unfold selected_branch, two_texts in Hsel.
      destruct (_ <? 2); [discriminate|].
      destruct (two_blobs argv); [discriminate|].
      destruct (Z.eqb_spec (Z.of_nat (List.length argv)) 2); [assumption|].
      cbn in Hsel. destruct (Z.rem _ 2 =? 0); discriminate. }
    unfold export_texts. cbv zeta.
    destruct (negb _).
    + left. exists different_dimensions, []. split; [constructor|reflexivity].
    + destruct (parse_texts _ _ _ _ _) as [[parsed1 parsed2]|] eqn:E.
      * right. eexists [_; _], _, _, _. split; [apply two_stack_arrays|].
        split; [reflexivity|].
        intros half ->. destruct (doubled_pair half Hargc) as [a ->].
        cbn in E. apply parse_texts_same in E. now subst.
      * left. eexists cannot_parse, [_; _]. split; [apply two_stack_arrays|reflexivity].
  - (* columns *)
    unfold export_columns. cbv zeta.
    destruct (parse_columns _ _ _ _ _) as [[parsed1 parsed2]|] eqn:E.
    + right. eexists [_; _], _, _, _. split; [apply two_stack_arrays|].
      split; [reflexivity|].
      intros half ->. rewrite (half_of_doubled half half eq_refl), Nat2Z.id in E.
      apply parse_columns_same in E. now subst.
    + left. eexists unsupported_column, [_; _].
      split; [apply two_stack_arrays|reflexivity].
  - left. exists not_divisible, []. split; [constructor|reflexivity].
Qed.

(** C6.  [distance_haversine_meters]: when the builder sets no message, the
    one metric call is the f64 haversine metric and the result emitted to
    the host is that call's value multiplied by 6371009, the product being
    taken after the call, in the arithmetic of the distance type (for a
    [double] distance that is the plain binary64 product); when the two
    halves of the argument list are
    identical (two equal blobs, two equal texts, or equal column halves) the
    metric receives the same buffer twice, and if it returns 0 for it the
    emitted result is 0.0.  When the builder sets a message, the message is
    emitted as the error, nothing is scaled and no value is emitted. *)
Theorem haversine_meters_scales argv :
  let st := export f64_k haversine_k argv export_start in
  let trace := sqlite_haversine_meters from_chars metric distance_kind argv in
  (error_message_out st = None ->
   exists pre dimensions a b,
     only_stack_arrays pre
     /\ trace = pre ++ [ev_metric dimensions haversine_k f64_k a b;
                        ev_result_double
                          (scalar_of_double distance_kind
                             (metric dimensions haversine_k f64_k a b * 6371009)%float)]
     /\ (distance_kind = f64_k ->
         trace = pre ++ [ev_metric dimensions haversine_k f64_k a b;
                         ev_result_double
                           (metric dimensions haversine_k f64_k a b * 6371009)%float])
     /\ (forall half, argv = half ++ half ->
           a = b
           /\ (metric dimensions haversine_k f64_k a a = 0%float ->
               trace = pre ++ [ev_metric dimensions haversine_k f64_k a a;
                               ev_result_double 0%float])))
  /\ (forall msg, error_message_out st = Some msg ->
      exists pre,
        only_stack_arrays pre
        /\ trace = pre ++ [ev_result_error msg]
        /\ filter is_metric trace = []
        /\ filter is_result trace = [ev_result_error msg]).
Proof.
  cbv zeta. unfold sqlite_haversine_meters.
  destruct (haversine_export_shape argv)
    as [(msg & pre & Hpre & ->)|(pre & dimensions & a & b & Hpre & -> & Hsame)];
    cbn [error_message_out events distance_out].
  - split; [discriminate|].
    intros msg' [= <-]. exists pre. repeat split; trivial.
    + rewrite filter_app, only_stack_arrays_no_metric by assumption. reflexivity.
    + rewrite filter_app, only_stack_arrays_no_result by assumption. reflexivity.
  - split; [|discriminate].
    intros _. exists pre, dimensions, a, b.
    split; [assumption|]. split; [now rewrite <- app_assoc|].
    split; [intros ->; now rewrite <- app_assoc|].
    intros half Hhalf. specialize (Hsame half Hhalf). subst b.
    split; [reflexivity|].
    intros ->. rewrite <- app_assoc. unfold scale_to_meters.
    destruct distance_kind; reflexivity.
Qed.

End HaversineFacts.

(** * Properties of the edit-distance function *)

Section LevenshteinFacts.

Variable sz_levenshtein_memory_needed : Z -> Z -> Z.
Variable sz_levenshtein : string -> string -> Z -> Z.

Local Abbreviation levenshtein :=
  (sqlite_levenshtein sz_levenshtein_memory_needed sz_levenshtein).
Local Abbreviation cleanup := cleanup_temporary_memory.
Local Abbreviation run_ops := (run sz_levenshtein_memory_needed sz_levenshtein).

(** A call that stops at the type test. *)
Lemma levenshtein_rejects argv p :
  requested sz_levenshtein_memory_needed argv = None ->
  levenshtein argv p = record_call (ev_result_error expects_two_texts) p.
Proof.
  unfold requested, sqlite_levenshtein.
  destruct (nth 0 argv value_null), (nth 1 argv value_null);
    try reflexivity; discriminate.
Qed.

(** A call that goes through, step by step. *)
Lemma levenshtein_accepts argv p n :
  requested sz_levenshtein_memory_needed argv = Some n ->
  let str1 := sqlite3_value_text (nth 0 argv value_null) in
  let str2 := sqlite3_value_text (nth 1 argv value_null) in
  let grown :=
    if length (temporary_memory p) <? n
    then set_temporary_memory {| start := Some (next_block p); length := n |}
           (snd (sqlite3_realloc64 (start (temporary_memory p)) n p))
    else p in
  levenshtein argv p =
  record_call (ev_result_int (sz_levenshtein str1 str2 255))
    (record_call (ev_levenshtein str1 str2 255 (start (temporary_memory grown))) grown).
Proof.
  unfold requested, sqlite_levenshtein.
  destruct (nth 0 argv value_null) as [| |s1| |]; try discriminate.
  destruct (nth 1 argv value_null) as [| |s2| |]; try discriminate.
  intros [= <-]. cbn.
  destruct (_ <? _); reflexivity.
Qed.

Lemma levenshtein_length argv p :
  length (temporary_memory (levenshtein argv p)) =
  match requested sz_levenshtein_memory_needed argv with
  | Some n => Z.max (length (temporary_memory p)) n
  | None => length (temporary_memory p)
  end.
Proof.
  destruct (requested sz_levenshtein_memory_needed argv) as [n|] eqn:E.
  - rewrite (levenshtein_accepts argv p n E). cbn.
    destruct (Z.ltb_spec (length (temporary_memory p)) n); cbn; lia.
  - rewrite (levenshtein_rejects argv p E). reflexivity.
Qed.

Lemma run_calls_length argvs p :
  length (temporary_memory p)
  <= length (temporary_memory (run_ops (map op_levenshtein argvs) p))
  /\ forall argv n,
       In argv argvs -> requested sz_levenshtein_memory_needed argv = Some n ->
       n <= length (temporary_memory (run_ops (map op_levenshtein argvs) p)).
Proof.
  revert p. induction argvs as [|argv0 argvs IH]; intros p.
  - split; [cbn; lia|]. intros argv n [].
  - cbn [map run fold_left step].
    destruct (IH (levenshtein argv0 p)) as [Hmono Hreq].
    pose proof (levenshtein_length argv0 p) as Hlen.
    unfold run in *.
    split.
    + destruct (requested _ argv0); lia.
    + intros argv n [<-|Hin] Hn.
      * rewrite Hn in Hlen. lia.
      * eauto.
Qed.

Lemma released_blocks_app l1 l2 :
  released_blocks (l1 ++ l2) = released_blocks l1 ++ released_blocks l2.
Proof. apply flat_map_app. Qed.

Lemma blocks_accounted_start : blocks_accounted process_start.
Proof.
  repeat split; cbn; try constructor; try contradiction; try discriminate.
  intros [H _]. lia.
Qed.

(** Handing the scratch region back, keeping the books. *)
Lemma release_scratch p b :
  blocks_accounted p -> start (temporary_memory p) = Some b ->
  release (Some b) (live p) = []
  /\ NoDup (released_blocks (calls p) ++ [b])
  /\ (forall c, In c (released_blocks (calls p) ++ [b]) <-> (c < next_block p)%nat).
Proof.
  intros (Hcons & Hnodup & Hrel & Hlt) Hb.
  unfold scratch_consistent in Hcons. rewrite Hb in Hcons.
  split; [|split].
  - rewrite Hcons. cbn. now rewrite Nat.eqb_refl.
  - apply NoDup_app; [assumption|repeat constructor; intros []|].
    intros c Hc [<-|[]]. apply Hrel in Hc. now destruct Hc.
  - intros c. rewrite in_app_iff, Hrel, Hb. cbn.
    split.
    + intros [[H _]|[<-|[]]]; [assumption|auto].
    + intros Hc. destruct (Nat.eq_dec b c) as [->|Hne]; [auto|].
      left. split; [assumption|congruence].
Qed.

Lemma blocks_accounted_record_call e p :
  released e = [] -> blocks_accounted p -> blocks_accounted (record_call e p).
Proof.
  intros He (Hcons & Hnodup & Hrel & Hlt).
  unfold blocks_accounted, scratch_consistent. cbn.
  rewrite released_blocks_app. cbn. rewrite He, !app_nil_r. auto.
Qed.

Lemma blocks_accounted_grow p n :
  blocks_accounted p ->
  blocks_accounted
    (set_temporary_memory {| start := Some (next_block p); length := n |}
       (snd (sqlite3_realloc64 (start (temporary_memory p)) n p))).
Proof.
  intros Hacc. pose proof Hacc as (Hcons & Hnodup & Hrel & Hlt).
  unfold blocks_accounted, scratch_consistent. cbn.
  rewrite released_blocks_app. cbn. rewrite app_nil_r.
  destruct (start (temporary_memory p)) as [b|] eqn:Hb.
  - destruct (release_scratch p b Hacc Hb) as (Hlive & Hnd & Hin).
    rewrite Hlive.
    split; [reflexivity|]. split; [exact Hnd|]. split.
    + intros c. rewrite Hin. split.
      * intros H. split; [lia|]. intros [= E]. lia.
      * intros [H Hne]. assert (c <> next_block p) by congruence. lia.
    + intros c [= <-]. lia.
  - unfold scratch_consistent in Hcons. rewrite Hb in Hcons.
    destruct Hcons as [_ Hlive]. cbn. rewrite Hlive, app_nil_r.
    split; [reflexivity|]. split; [exact Hnodup|]. split.
    + intros c. rewrite Hrel. split.
      * intros [H _]. split; [lia|]. intros [= E]. lia.
      * intros [H Hne]. assert (c <> next_block p) by congruence.
        split; [lia|discriminate].
    + intros c [= <-]. lia.
Qed.

Lemma blocks_accounted_levenshtein argv p :
  blocks_accounted p -> blocks_accounted (levenshtein argv p).
Proof.
  intros Hacc.
  destruct (requested sz_levenshtein_memory_needed argv) as [n|] eqn:E.
  - rewrite (levenshtein_accepts argv p n E). cbv zeta.
    do 2 (apply blocks_accounted_record_call; [reflexivity|]).
    destruct (_ <? _); [now apply blocks_accounted_grow|assumption].
  - rewrite (levenshtein_rejects argv p E).
    now apply blocks_accounted_record_call.
Qed.

Lemma cleanup_spec p :
  blocks_accounted p ->
  let q := cleanup p in
  blocks_accounted q
  /\ temporary_memory q = {| start := None; length := 0 |}
  /\ live q = []
  /\ calls q = calls p ++ match start (temporary_memory p) with
                          | Some b => [ev_free (Some b)]
                          | None => []
                          end
  /\ cleanup q = q
  /\ (forall b, In b (released_blocks (calls q)) <-> (b < next_block q)%nat).
Proof.
  intros Hacc. pose proof Hacc as (Hcons & Hnodup & Hrel & Hlt). cbv zeta.
  unfold cleanup_temporary_memory.
  destruct (start (temporary_memory p)) as [b|] eqn:Hb.
  - destruct (release_scratch p b Hacc Hb) as (Hlive & Hnd & Hin).
    set (q := set_temporary_memory {| start := None; length := 0 |}
                (sqlite3_free (Some b) p)).
    assert (Hcalls : released_blocks (calls q) = released_blocks (calls p) ++ [b]).
    { subst q. cbn. now rewrite released_blocks_app. }
    assert (Hq : blocks_accounted q).
    { unfold blocks_accounted, scratch_consistent. rewrite Hcalls.
      subst q. cbn -[release]. rewrite Hlive.
      split; [split; reflexivity|]. split; [exact Hnd|]. split.
      - intros c. rewrite Hin. split; [intros H; split; [exact H|discriminate]|tauto].
      - discriminate. }
    split; [exact Hq|]. split; [reflexivity|]. split; [exact Hlive|].
    split; [reflexivity|]. split; [reflexivity|].
    intros c. rewrite Hcalls. apply Hin.
  - unfold scratch_consistent in Hcons. rewrite Hb in Hcons.
    destruct Hcons as [Hlen Hlive].
    rewrite Hb, app_nil_r.
    split; [assumption|].
    split; [destruct (temporary_memory p); cbn in *; congruence|].
    split; [assumption|]. split; [reflexivity|]. split; [reflexivity|].
    intros c. rewrite Hrel. split; [tauto|].
    intros H. split; [assumption|discriminate].
Qed.

Lemma blocks_accounted_step p o :
  blocks_accounted p ->
  blocks_accounted (step sz_levenshtein_memory_needed sz_levenshtein p o).
Proof.
  intros Hacc. destruct o as [argv|]; cbn [step].
  - now apply blocks_accounted_levenshtein.
  - now apply cleanup_spec.
Qed.

Lemma blocks_accounted_run ops p :
  blocks_accounted p -> blocks_accounted (run_ops ops p).
Proof.
  revert p. induction ops as [|o ops IH]; intros p Hacc; [exact Hacc|].
  cbn [run fold_left]. apply IH. now apply blocks_accounted_step.
Qed.

(** C4.  One call asking for [n] bytes leaves the scratch length at the
    larger of its old value and [n], and calls the allocator exactly when
    the old length is smaller than [n] (otherwise region and allocator are
    untouched); no call makes the length smaller, so after any sequence of
    calls the length is at least every size asked for along the way.  From
    the start of the process and through any interleaving of calls and
    teardowns the region is the allocator's only live block and has the
    recorded size; a teardown frees the region if there is one, once,
    leaves nothing allocated, and a repeated teardown does nothing: every
    block ever handed out has then been given back exactly once. *)
Theorem scratch_buffer_only_grows :
  (forall argv p n,
      requested sz_levenshtein_memory_needed argv = Some n ->
      let q := levenshtein argv p in
      length (temporary_memory q) = Z.max (length (temporary_memory p)) n
      /\ filter is_realloc (calls q)
         = filter is_realloc (calls p)
           ++ (if length (temporary_memory p) <? n
               then [ev_realloc64 (start (temporary_memory p)) n (Some (next_block p))]
               else [])
      /\ (n <= length (temporary_memory p) ->
          temporary_memory q = temporary_memory p /\ live q = live p))
  /\ (forall argv p,
        length (temporary_memory p) <= length (temporary_memory (levenshtein argv p)))
  /\ (forall argvs p,
        length (temporary_memory p)
        <= length (temporary_memory (run_ops (map op_levenshtein argvs) p))
        /\ forall argv n,
             In argv argvs -> requested sz_levenshtein_memory_needed argv = Some n ->
             n <= length (temporary_memory (run_ops (map op_levenshtein argvs) p)))
  /\ (forall ops,
        let p := run_ops ops process_start in
        let q := cleanup p in
        blocks_accounted p
        /\ temporary_memory q = {| start := None; length := 0 |}
        /\ live q = []
        /\ calls q = calls p ++ match start (temporary_memory p) with
                                | Some b => [ev_free (Some b)]
                                | None => []
                                end
        /\ cleanup q = q
        /\ NoDup (released_blocks (calls q))
        /\ (forall b, In b (released_blocks (calls q)) <-> (b < next_block q)%nat)).
Proof.
  split; [|split; [|split]].
  - intros argv p n Hn. cbv zeta.
    split; [now rewrite levenshtein_length, Hn|].
    rewrite (levenshtein_accepts argv p n Hn). cbv zeta.
    destruct (Z.ltb_spec (length (temporary_memory p)) n) as [Hlt|Hge]; cbn.
    + split; [|lia]. rewrite <- !app_assoc, !filter_app. reflexivity.
    + split; [|split; reflexivity]. rewrite <- !app_assoc, !filter_app. cbn.
      reflexivity.
  - intros argv p. rewrite levenshtein_length.
    destruct (requested _ argv); lia.
  - apply run_calls_length.
  - intros ops. cbv zeta.
    pose proof (blocks_accounted_run ops process_start blocks_accounted_start) as Hacc.
    destruct (cleanup_spec _ Hacc) as (Hq & Hmem & Hlive & Hcalls & Hidem & Hall).
    split; [exact Hacc|]. split; [exact Hmem|]. split; [exact Hlive|].
    split; [exact Hcalls|]. split; [exact Hidem|]. split; [apply Hq|exact Hall].
Qed.

(** C10.  If either argument of [distance_levenshtein] is not a text, the
    call makes one call only, the host's error result with the message
    "Levenshtein distance function expects two text arguments": no value is
    set, the edit-distance kernel and the allocator are not called, and the
    scratch region is as it was. *)
Theorem levenshtein_expects_texts argv p :
  sqlite3_value_type (nth 0 argv value_null) <> SQLITE_TEXT
  \/ sqlite3_value_type (nth 1 argv value_null) <> SQLITE_TEXT ->
  let q := levenshtein argv p in
  calls q = calls p ++ [ev_result_error "Levenshtein distance function expects two text arguments"]
  /\ temporary_memory q = temporary_memory p
  /\ live q = live p
  /\ next_block q = next_block p.
Proof.
  intros Htype. cbv zeta. rewrite levenshtein_rejects; [repeat split|].
  unfold requested.
  destruct (nth 0 argv value_null), (nth 1 argv value_null); try reflexivity.
  destruct Htype as [H|H]; now contradiction H.
Qed.

End LevenshteinFacts.

(** ** The modelled kernel *)

Lemma edit_distance_empty_r (a : string) : edit_distance a "" = String.length a.
Proof. destruct a; reflexivity. Qed.

Lemma edit_distance_step x y (a b : string) :
  edit_distance (String x a) (String y b) =
  Nat.min (Nat.min (S (edit_distance a (String y b))) (S (edit_distance (String x a) b)))
          ((if Ascii.eqb x y then 0 else 1) + edit_distance a b)%nat.
Proof. reflexivity. Qed.

Lemma edit_script_delete_all (a : string) : edit_script a "" (String.length a).
Proof.
  induction a as [|x a IH]; [constructor|].
  cbn [String.length]. now apply script_delete.
Qed.

Lemma edit_script_insert_all (b : string) : edit_script "" b (String.length b).
Proof.
  induction b as [|y b IH]; [constructor|].
  cbn [String.length]. now apply script_insert.
Qed.

(** Some script has the cost [edit_distance] computes. *)
Lemma edit_distance_attained (a b : string) : edit_script a b (edit_distance a b).
Proof.
  revert b. induction a as [|x a IHa]; intros b.
  - apply edit_script_insert_all.
  - induction b as [|y b IHb].
    + rewrite edit_distance_empty_r. apply edit_script_delete_all.
    + rewrite edit_distance_step.
      set (sub := ((if Ascii.eqb x y then 0 else 1) + edit_distance a b)%nat).
      assert (Hsub : edit_script (String x a) (String y b) sub).
      { subst sub. destruct (Ascii.eqb_spec x y) as [->|_]; cbn [Nat.add].
        - apply script_keep, IHa.
        - apply script_substitute, IHa. }
      destruct (Nat.min_spec (Nat.min (S (edit_distance a (String y b)))
                                      (S (edit_distance (String x a) b))) sub)
        as [[_ ->]|[_ ->]]; [|exact Hsub].
      destruct (Nat.min_spec (S (edit_distance a (String y b)))
                             (S (edit_distance (String x a) b)))
        as [[_ ->]|[_ ->]].
      * apply script_delete, IHa.
      * apply script_insert, IHb.
Qed.

(** No script is cheaper. *)
Lemma edit_distance_least (a b : string) (n : nat) :
  edit_script a b n -> (edit_distance a b <= n)%nat.
Proof.
  induction 1 as [|c a b n _ IH|c d a b n _ IH|c a b n _ IH|d a b n _ IH].
  - cbn. lia.
  - rewrite edit_distance_step, Ascii.eqb_refl. lia.
  - rewrite edit_distance_step. destruct (Ascii.eqb c d); lia.
  - destruct b as [|y b].
    + rewrite edit_distance_empty_r in *. cbn [String.length]. lia.
    + rewrite edit_distance_step. lia.
  - destruct a as [|x a].
    + cbn [edit_distance String.length] in *. lia.
    + rewrite edit_distance_step. lia.
Qed.

(** C8.  With the kernel modelled as the edit distance capped at the bound:
    [distance_levenshtein] on two texts calls the kernel once, with bound
    255, and emits to the host, as its only result, the edit distance of the
    two texts capped at 255, where the edit distance is the least number of
    single-character insertions, deletions and substitutions turning one
    text into the other.  For "kitten" and "kitten" the result is 0, for ""
    and "abc" it is 3. *)
Theorem levenshtein_is_capped_edit_distance
    (memory_needed : Z -> Z -> Z) (a b : string) (p : process) :
  let call := sqlite_levenshtein memory_needed edit_distance_bounded in
  let q := call [value_text a; value_text b] p in
  (exists grow,
      filter is_result grow = []
      /\ calls q = calls p ++ grow
                   ++ [ev_levenshtein a b 255 (start (temporary_memory q));
                       ev_result_int (Z.min (Z.of_nat (edit_distance a b)) 255)])
  /\ edit_script a b (edit_distance a b)
  /\ (forall n, edit_script a b n -> (edit_distance a b <= n)%nat)
  /\ (exists grow,
        filter is_result grow = []
        /\ calls (call [value_text "kitten"; value_text "kitten"] p)
           = calls p ++ grow
             ++ [ev_levenshtein "kitten" "kitten" 255
                   (start (temporary_memory
                             (call [value_text "kitten"; value_text "kitten"] p)));
                 ev_result_int 0])
  /\ (exists grow,
        filter is_result grow = []
        /\ calls (call [value_text ""; value_text "abc"] p)
           = calls p ++ grow
             ++ [ev_levenshtein "" "abc" 255
                   (start (temporary_memory (call [value_text ""; value_text "abc"] p)));
                 ev_result_int 3]).
Proof.
  cbv zeta.
  assert (Hcall : forall s1 s2,
             exists grow,
               filter is_result grow = []
               /\ calls (sqlite_levenshtein memory_needed edit_distance_bounded
                           [value_text s1; value_text s2] p)
                  = calls p ++ grow
                    ++ [ev_levenshtein s1 s2 255
                          (start (temporary_memory
                                    (sqlite_levenshtein memory_needed edit_distance_bounded
                                       [value_text s1; value_text s2] p)));
                        ev_result_int (Z.min (Z.of_nat (edit_distance s1 s2)) 255)]).
  { intros s1 s2.
    rewrite (levenshtein_accepts memory_needed edit_distance_bounded
               [value_text s1; value_text s2] p _ eq_refl).
    cbv zeta. cbn [nth sqlite3_value_text].
    destruct (_ <? _).
    - exists [ev_realloc64 (start (temporary_memory p))
                (memory_needed (Z.of_nat (String.length s1)) (Z.of_nat (String.length s2)))
                (Some (next_block p))].
      split; [reflexivity|]. cbn. now rewrite <- !app_assoc.
    - exists []. split; [reflexivity|]. cbn. now rewrite <- !app_assoc. }
  split; [apply Hcall|].
  split; [apply edit_distance_attained|].
  split; [apply edit_distance_least|].
  split; [exact (Hcall "kitten" "kitten")|exact (Hcall "" "abc")].
Qed.

(** * The model at work: concrete calls *)

Lemma read_digits_within (s : string) (acc : Z) (k : nat) :
  (snd (read_digits s acc k) <= k + String.length s)%nat.
Proof.
  revert acc k. induction s as [|c s IH]; intros acc k; cbn [read_digits String.length].
  - cbn. lia.
  - destruct (digit_value c) as [d|].
    + specialize (IH (10 * acc + d) (S k)). lia.
    + cbn. lia.
Qed.

Lemma read_digits_closing_bracket (s : string) (acc : Z) (k : nat) :
  read_digits (s ++ "]")%string acc k = read_digits s acc k.
Proof.
  revert acc k. induction s as [|c s IH]; intros acc k; [reflexivity|].
  cbn [append read_digits]. destruct (digit_value c); [apply IH|reflexivity].
Qed.

Lemma decimal_from_chars_within parsed (s : string) v (n : nat) :
  decimal_from_chars parsed s = Some (v, n) -> (n <= String.length s)%nat.
Proof.
  unfold decimal_from_chars.
  pose proof (read_digits_within s 0 O) as H.
  destruct (read_digits s 0 O) as [z [|k]]; [discriminate|].
  intros [= _ <-]. exact H.
Qed.

Lemma decimal_from_chars_closing_bracket parsed (s : string) :
  decimal_from_chars parsed (s ++ "]")%string = decimal_from_chars parsed s.
Proof. unfold decimal_from_chars. now rewrite read_digits_closing_bracket. Qed.

Lemma sz_count_char_commas (n : nat) : sz_count_char (commas n) "," = Z.of_nat n.
Proof.
  induction n as [|n IH]; [reflexivity|].
  cbn [commas sz_count_char]. rewrite IH, Ascii.eqb_refl. lia.
Qed.

Lemma stack_array_sizes_app l1 l2 :
  stack_array_sizes (l1 ++ l2) = stack_array_sizes l1 ++ stack_array_sizes l2.
Proof. apply flat_map_app. Qed.

(** Two texts of [n] commas each make every dense function declare two
    arrays of [n + 1] scalars. *)
Lemma commas_stack_arrays from_chars metric sk mk (n : nat) :
  stack_array_sizes
    (sqlite_dense from_chars metric sk mk [value_text (commas n); value_text (commas n)])
  = [Z.of_nat n + 1; Z.of_nat n + 1].
Proof.
  unfold sqlite_dense.
  assert (H : stack_array_sizes
                (events (sqlite_dense_export from_chars metric sk mk
                           [value_text (commas n); value_text (commas n)] export_start))
              = [Z.of_nat n + 1; Z.of_nat n + 1]).
  { rewrite stack_arrays_of_export. cbn -[sz_count_char Z.add].
    rewrite sz_count_char_commas, Z.eqb_refl. reflexivity. }
  destruct (error_message_out _); rewrite stack_array_sizes_app, H; reflexivity.
Qed.

(** C1, against the specification's wording: two integers are none of the
    three shapes it lists, yet the call does not fail: the code takes them
    as a column tuple of dimension 1 and emits a distance. *)
Lemma two_scalars_are_a_column_tuple :
  specified_encoding [value_integer 1; value_integer 2] = None
  /\ selected_branch [value_integer 1; value_integer 2] = branch_columns
  /\ sqlite_dense decimal_from_chars discrete_metric f64_k l2sq_k
       [value_integer 1; value_integer 2]
     = [ev_stack_array 1; ev_stack_array 1;
        ev_metric 1 l2sq_k f64_k (scalars [1%float]) (scalars [2%float]);
        ev_result_double 1%float].
Proof. repeat split. Qed.

(** C1: a column call of four, an empty call and a call of three. *)
Lemma column_tuple_selection_witness :
  let four := [value_float 1.5%float; value_null; value_integer 2; value_integer 7] in
  let three := [value_null; value_null; value_null] in
  (selected_branch four = branch_columns
   /\ sqlite_dense_export decimal_from_chars discrete_metric f32_k cos_k four export_start
      = export_columns discrete_metric f32_k cos_k four export_start)
  /\ sqlite_dense_export decimal_from_chars discrete_metric f32_k cos_k [] export_start
     = set_error "Distance function expects at least two arguments" export_start
  /\ sqlite_dense_export decimal_from_chars discrete_metric f32_k cos_k three export_start
     = set_error "Number of columns in two vectors must be divisible by two" export_start.
Proof.
  cbv zeta. split; [|split].
  - destruct (column_tuple_selection decimal_from_chars discrete_metric f32_k cos_k
                [value_float 1.5%float; value_null; value_integer 2; value_integer 7]
                export_start) as (Hiff & Hsel & _).
    assert (H : selected_branch
                  [value_float 1.5%float; value_null; value_integer 2; value_integer 7]
                = branch_columns).
    { apply Hiff. repeat split. cbn. lia. }
    split; [exact H|exact (Hsel H)].
  - destruct (column_tuple_selection decimal_from_chars discrete_metric f32_k cos_k
                [] export_start) as (_ & _ & _ & Hfew & _).
    apply Hfew. cbn. lia.
  - destruct (column_tuple_selection decimal_from_chars discrete_metric f32_k cos_k
                [value_null; value_null; value_null] export_start)
      as (_ & _ & _ & _ & Hodd & _).
    apply Hodd; [cbn; lia|reflexivity].
Defined.

(** C2: texts of three and of two numerals; blobs of one and of no byte. *)
Lemma unequal_dimensions_fail_witness :
  (unequal_dimension (value_text "1,2,3") (value_text "1,2") = true
   /\ sqlite_dense decimal_from_chars discrete_metric f32_k cos_k
        [value_text "1,2,3"; value_text "1,2"]
      = [ev_result_error "Vectors have different number of dimensions"])
  /\ (unequal_dimension (value_blob [Byte.x01]) (value_blob []) = true
      /\ sqlite_haversine_meters decimal_from_chars discrete_metric f32_k
           [value_blob [Byte.x01]; value_blob []]
         = [ev_result_error "Vectors have different number of dimensions"]).
Proof.
  split; (split; [reflexivity|]).
  - apply (unequal_dimensions_fail decimal_from_chars discrete_metric f32_k f32_k cos_k
             (value_text "1,2,3") (value_text "1,2")). reflexivity.
  - apply (unequal_dimensions_fail decimal_from_chars discrete_metric f32_k f32_k cos_k
             (value_blob [Byte.x01]) (value_blob [])). reflexivity.
Defined.

(** C5: "[1,2,3]" against "1,2,3", with the decimal parser. *)
Lemma brackets_are_optional_witness :
  strip_bracket "1,2,3" = "1,2,3"
  /\ strip_bracket "4, 5,6" = "4, 5,6"
  /\ (forall k s v n, decimal_from_chars k s = Some (v, n) -> (n <= String.length s)%nat)
  /\ (forall k s, decimal_from_chars k (s ++ "]")%string = decimal_from_chars k s)
  /\ sqlite_dense_export decimal_from_chars discrete_metric f64_k l2sq_k
       [value_text "[1,2,3"; value_text "4, 5,6"] export_start
     = sqlite_dense_export decimal_from_chars discrete_metric f64_k l2sq_k
         [value_text "1,2,3"; value_text "4, 5,6"] export_start
  /\ sqlite_dense_export decimal_from_chars discrete_metric f64_k l2sq_k
       [value_text "[1,2,3]"; value_text "[4, 5,6]"] export_start
     = sqlite_dense_export decimal_from_chars discrete_metric f64_k l2sq_k
         [value_text "1,2,3"; value_text "4, 5,6"] export_start
  /\ events (sqlite_dense_export decimal_from_chars discrete_metric f64_k l2sq_k
               [value_text "1,2,3"; value_text "4, 5,6"] export_start)
     = [ev_stack_array 3; ev_stack_array 3;
        ev_metric 3 l2sq_k f64_k (scalars [1%float; 2%float; 3%float])
                                 (scalars [4%float; 5%float; 6%float])].
Proof.
  split; [reflexivity|]. split; [reflexivity|].
  split; [exact decimal_from_chars_within|].
  split; [exact decimal_from_chars_closing_bracket|].
  destruct (brackets_are_optional decimal_from_chars discrete_metric f64_k l2sq_k
              "1,2,3" "4, 5,6" export_start eq_refl eq_refl)
    as (_ & _ & _ & Hleft & _ & Hboth).
  destruct (Hboth decimal_from_chars_within decimal_from_chars_closing_bracket)
    as (_ & Hwrapped & _).
  split; [exact Hleft|]. split; [exact Hwrapped|reflexivity].
Defined.

Lemma float_same_refl (x : float) : float_same x x = true.
Proof.
  unfold float_same. destruct (Prim2SF x) as [s|s| |s m e]; try reflexivity.
  - apply Bool.eqb_reflx.
  - apply Bool.eqb_reflx.
  - now rewrite Bool.eqb_reflx, Pos.eqb_refl, Z.eqb_refl.
Qed.

Lemma buffer_eqb_refl (v : buffer) : buffer_eqb v v = true.
Proof.
  destruct v as [bytes|xs]; cbn; rewrite Nat.eqb_refl; cbn.
  - induction bytes as [|x bytes IH]; [reflexivity|].
    cbn. rewrite IH, andb_true_r. now destruct x.
  - induction xs as [|x xs IH]; [reflexivity|].
    cbn. rewrite IH, andb_true_r. apply float_same_refl.
Qed.

(** C6: the same coordinates twice, as texts and as columns. *)
Lemma haversine_meters_scales_witness :
  sqlite_haversine_meters decimal_from_chars discrete_metric f32_k
    [value_text "[48, 11]"; value_text "[48, 11]"]
  = [ev_stack_array 2; ev_stack_array 2;
     ev_metric 2 haversine_k f64_k (scalars [48%float; 11%float])
                                   (scalars [48%float; 11%float]);
     ev_result_double 0%float]
  /\ sqlite_haversine_meters decimal_from_chars discrete_metric f64_k
       [value_text "48, 11"; value_text "48, 12"]
     = [ev_stack_array 2; ev_stack_array 2;
        ev_metric 2 haversine_k f64_k (scalars [48%float; 11%float])
                                      (scalars [48%float; 12%float]);
        ev_result_double 6371009%float]
  /\ exists pre dimensions a,
       sqlite_haversine_meters decimal_from_chars discrete_metric f32_k
         [value_integer 48; value_float 11.5%float; value_integer 48; value_float 11.5%float]
       = pre ++ [ev_metric dimensions haversine_k f64_k a a; ev_result_double 0%float].
Proof.
  split; [reflexivity|]. split; [reflexivity|].
  destruct (haversine_meters_scales decimal_from_chars discrete_metric f32_k
              [value_integer 48; value_float 11.5%float;
               value_integer 48; value_float 11.5%float])
    as [Hok _].
  destruct (Hok eq_refl) as (pre & dimensions & a & b & _ & Htrace & _ & Hsame).
  destruct (Hsame [value_integer 48; value_float 11.5%float] eq_refl) as [-> Hzero].
  exists pre, dimensions, b. apply Hzero.
  unfold discrete_metric. now rewrite buffer_eqb_refl.
Defined.

(** C7, against the specification's wording: an integer beyond 32 bits is not
    widened but cut to its low 32 bits, so 4294967296 reaches the metric as
    0 and is at distance 0 from 0; and a float stored into a binary32 vector
    is rounded, not taken as it is: the [double] 0.1, [0x1.999999999999ap-4],
    becomes [0x1.99999ap-4]. *)
Lemma wide_integer_is_truncated :
  column_scalar f64_k (value_integer 4294967296) = Some 0%float
  /\ column_scalar f64_k (value_integer 4294967296) <> Some (f64_of_int 4294967296)
  /\ sqlite_dense decimal_from_chars discrete_metric f64_k l2sq_k
       [value_integer 4294967296; value_integer 0]
     = [ev_stack_array 1; ev_stack_array 1;
        ev_metric 1 l2sq_k f64_k (scalars [0%float]) (scalars [0%float]);
        ev_result_double 0%float]
  /\ column_scalar f32_k (value_float 0x1.999999999999ap-4%float)
     = Some 0x1.99999ap-4%float
  /\ column_scalar f32_k (value_float 0x1.999999999999ap-4%float)
     <> Some 0x1.999999999999ap-4%float.
Proof.
  split; [reflexivity|]. split; [vm_compute; discriminate|].
  split; [reflexivity|]. split; [reflexivity|]. vm_compute; discriminate.
Qed.

(** C7: two columns against two columns, into binary32. *)
Lemma columns_are_coerced_witness :
  selected_branch [value_integer 3; value_float 0.5%float; value_null; value_integer (-4)]
  = branch_columns
  /\ sqlite_dense_export decimal_from_chars discrete_metric f32_k cos_k
       [value_integer 3; value_float 0.5%float; value_null; value_integer (-4)]
       export_start
     = compute_distance discrete_metric 2 cos_k f32_k
         (scalars [3%float; 0.5%float]) (scalars [0%float; (-4)%float])
         (record_event (ev_stack_array 2) (record_event (ev_stack_array 2) export_start)).
Proof.
  split; [reflexivity|].
  exact (proj1 (proj2 (columns_are_coerced decimal_from_chars discrete_metric f32_k cos_k
                         [value_integer 3; value_float 0.5%float;
                          value_null; value_integer (-4)]
                         export_start eq_refl))).
Defined.

(** C9, against the specification's wording: no bound holds for the arrays declared
    in the frame.  Whatever bound is proposed, two texts of that many commas
    make the cosine function declare arrays one element longer. *)
Lemma stack_arrays_are_unbounded :
  ~ exists bound : Z,
      forall argv,
        Forall (fun n => n <= bound)
          (stack_array_sizes
             (sqlite_dense decimal_from_chars discrete_metric f32_k cos_k argv)).
Proof.
  intros [bound Hbound].
  specialize (Hbound [value_text (commas (Z.to_nat bound)); value_text (commas (Z.to_nat bound))]).
  rewrite commas_stack_arrays in Hbound.
  inversion Hbound as [|n sizes Hn _]; subst. lia.
Qed.

(** C9: texts of three numerals, and six columns. *)
Lemma working_arrays_follow_the_input_witness :
  (selected_branch [value_text "1,2,3"; value_text "4,5,x"] = branch_texts
   /\ stack_array_sizes
        (events (sqlite_dense_export decimal_from_chars discrete_metric f32_k cos_k
                   [value_text "1,2,3"; value_text "4,5,x"] export_start))
      = [3; 3])
  /\ (selected_branch (repeat value_null 6) = branch_columns
      /\ stack_array_sizes
           (events (sqlite_dense_export decimal_from_chars discrete_metric f32_k cos_k
                      (repeat value_null 6) export_start))
         = [3; 3]).
Proof.
  split; (split; [reflexivity|]).
  - destruct (working_arrays_follow_the_input decimal_from_chars discrete_metric f32_k cos_k
                [value_text "1,2,3"; value_text "4,5,x"]) as (_ & _ & Htexts & _).
    destruct (Htexts eq_refl) as [[H _]|[_ H]]; [exact H|discriminate H].
  - destruct (working_arrays_follow_the_input decimal_from_chars discrete_metric f32_k cos_k
                (repeat value_null 6)) as (_ & Hcolumns & _).
    exact (Hcolumns eq_refl).
Defined.

(** C4: growing, reusing, growing again, and two teardowns. *)
Lemma scratch_buffer_only_grows_witness :
  let small := [value_text "kitten"; value_text "sitting"] in
  let large := [value_text "a"; value_text "a considerably longer text"] in
  let p := run two_rows edit_distance_bounded
             [op_levenshtein small; op_levenshtein large; op_levenshtein small]
             process_start in
  requested two_rows small = Some 16
  /\ requested two_rows large = Some 54
  /\ 16 <= length (temporary_memory p)
  /\ 54 <= length (temporary_memory p)
  /\ length (temporary_memory (sqlite_levenshtein two_rows edit_distance_bounded small p))
     = Z.max (length (temporary_memory p)) 16
  /\ blocks_accounted p
  /\ live (cleanup_temporary_memory p) = []
  /\ calls (cleanup_temporary_memory p) = calls p ++ [ev_free (Some 1%nat)]
  /\ cleanup_temporary_memory (cleanup_temporary_memory p) = cleanup_temporary_memory p.
Proof.
  cbv zeta.
  destruct (scratch_buffer_only_grows two_rows edit_distance_bounded)
    as (Hcall & _ & Hcalls & Hteardown).
  set (small := [value_text "kitten"; value_text "sitting"]).
  set (large := [value_text "a"; value_text "a considerably longer text"]).
  split; [reflexivity|]. split; [reflexivity|].
  destruct (Hcalls [small; large; small] process_start) as [_ Hreq].
  split; [apply (Hreq small 16); [left|]; reflexivity|].
  split; [apply (Hreq large 54); [right; left|]; reflexivity|].
  split; [apply (Hcall small _ 16 eq_refl)|].
  destruct (Hteardown [op_levenshtein small; op_levenshtein large; op_levenshtein small])
    as (Hacc & _ & Hlive & Hfree & Hidem & _).
  split; [exact Hacc|]. split; [exact Hlive|]. split; [exact Hfree|exact Hidem].
Defined.

(** C10: an integer where a text is expected. *)
Lemma levenshtein_expects_texts_witness :
  (sqlite3_value_type (nth 0 [value_integer 7; value_text "abc"] value_null) <> SQLITE_TEXT
   \/ sqlite3_value_type (nth 1 [value_integer 7; value_text "abc"] value_null) <> SQLITE_TEXT)
  /\ calls (sqlite_levenshtein two_rows edit_distance_bounded
              [value_integer 7; value_text "abc"] process_start)
     = [ev_result_error "Levenshtein distance function expects two text arguments"]
  /\ temporary_memory (sqlite_levenshtein two_rows edit_distance_bounded
                         [value_integer 7; value_text "abc"] process_start)
     = {| start := None; length := 0 |}.
Proof.
  assert (H : sqlite3_value_type (nth 0 [value_integer 7; value_text "abc"] value_null)
              <> SQLITE_TEXT
              \/ sqlite3_value_type (nth 1 [value_integer 7; value_text "abc"] value_null)
                 <> SQLITE_TEXT).
  { left. discriminate. }
  split; [exact H|].
  destruct (levenshtein_expects_texts two_rows edit_distance_bounded
              [value_integer 7; value_text "abc"] process_start H)
    as (Hcalls & Hmem & _).
  split; [exact Hcalls|exact Hmem].
Defined.

(** * More on the dense distance functions *)

Section MetricCalls.

Variable from_chars : scalar_kind_t -> string -> option (float * nat).
Variable metric : Z -> metric_kind_t -> scalar_kind_t -> buffer -> buffer -> float.

Local Abbreviation export := (sqlite_dense_export from_chars metric).

Lemma parse_texts_lengths parsed (n : nat) (vec1 vec2 : string) parsed1 parsed2 :
  parse_texts from_chars parsed n vec1 vec2 = Some (parsed1, parsed2) ->
  List.length parsed1 = n /\ List.length parsed2 = n.
Proof.
  revert vec1 vec2 parsed1 parsed2.
  induction n as [|n IH]; intros vec1 vec2 parsed1 parsed2.
  - cbn. intros [= <- <-]. split; reflexivity.
  - cbn [parse_texts]. cbv zeta.
    destruct (from_chars parsed (skip_spaces vec1)) as [[x1 k1]|]; [|discriminate].
    destruct (from_chars parsed (skip_spaces vec2)) as [[x2 k2]|]; [|discriminate].
    destruct (parse_texts _ _ _ _ _) as [[q1 q2]|] eqn:E; [|discriminate].
    intros [= <- <-]. destruct (IH _ _ _ _ E) as [H1 H2].
    cbn [List.length]. split; congruence.
Qed.

Lemma parse_columns_lengths parsed argv (dimensions n i : nat) parsed1 parsed2 :
  parse_columns parsed argv dimensions n i = Some (parsed1, parsed2) ->
  List.length parsed1 = n /\ List.length parsed2 = n.
Proof.
  revert i parsed1 parsed2. induction n as [|n IH]; intros i parsed1 parsed2.
  - cbn. intros [= <- <-]. split; reflexivity.
  - cbn [parse_columns].
    destruct (column_scalar parsed (nth i argv value_null)); [|discriminate].
    destruct (column_scalar parsed (nth (dimensions + i) argv value_null)); [|discriminate].
    destruct (parse_columns _ _ _ _ _) as [[q1 q2]|] eqn:E; [|discriminate].
    intros [= <- <-]. destruct (IH _ _ _ E) as [H1 H2].
    cbn [List.length]. split; congruence.
Qed.

Lemma bits_per_scalar_positive sk : 0 < bits_per_scalar sk.
Proof. destruct sk; reflexivity. Qed.

(** Every event of a call satisfies both descriptions of a metric call. *)
Lemma export_metric_calls sk mk argv :
  Forall (fun e => buffers_fit sk e /\ kinds_match sk mk e)
         (events (export sk mk argv export_start)).
Proof.
  rewrite sqlite_dense_export_by_branch.
  destruct (selected_branch argv) eqn:Hsel.
  - constructor.
  - (* blobs *)
    assert (Hblobs : exists b1 b2,
               nth 0 argv value_null = value_blob b1
               /\ nth 1 argv value_null = value_blob b2).
    { unfold selected_branch, two_blobs, two_texts in Hsel.
      destruct (_ <? 2); [discriminate|].
      destruct (nth 0 argv value_null) as [| | |b1|];
        destruct (nth 1 argv value_null) as [| | |b2|];
        cbn in Hsel; rewrite ?andb_false_r in Hsel; cbn in Hsel;
        try (destruct (Z.rem _ 2 =? 0); discriminate);
        try (destruct (_ =? 2); cbn in Hsel;
             try (destruct (Z.rem _ 2 =? 0)); discriminate).
      now exists b1, b2. }
    destruct Hblobs as (b1 & b2 & -> & ->).
    unfold export_blobs. cbn [sqlite3_value_blob sqlite3_value_bytes]. cbv zeta.
    rewrite of_nat_eqb.
    destruct (Nat.eqb_spec (List.length b1) (List.length b2)) as [Hlen|_]; cbn [negb].
    + repeat constructor; trivial.
      * apply Z.div_pos; [unfold CHAR_BIT; lia|apply bits_per_scalar_positive].
      * rewrite Z.mul_comm, (Z.mul_comm CHAR_BIT).
        apply Z.mul_div_le, bits_per_scalar_positive.
      * pose proof (bits_per_scalar_positive sk) as Hbits.
        pose proof (Z.mul_succ_div_gt (Z.of_nat (List.length b1) * CHAR_BIT)
                      (bits_per_scalar sk) Hbits) as Hgt.
        rewrite (Z.mul_comm CHAR_BIT). unfold Z.succ in Hgt. lia.
    + constructor.
  - (* texts *)
    unfold export_texts. cbv zeta.
    destruct (negb _); [constructor|].
    pose proof (sz_count_char_bounds (sqlite3_value_text (nth 0 argv value_null)) ",")
      as Hcommas.
    destruct (parse_texts _ _ _ _ _) as [[parsed1 parsed2]|] eqn:E.
    + apply parse_texts_lengths in E. destruct E as [H1 H2].
      repeat constructor; try lia.
    + repeat constructor.
  - (* columns *)
    unfold export_columns. cbv zeta.
    assert (Hq : 1 <= Z.quot (Z.of_nat (List.length argv)) 2).
    { unfold selected_branch in Hsel.
      destruct (Z.ltb_spec (Z.of_nat (List.length argv)) 2); [discriminate|].
      apply Z.quot_le_lower_bound; lia. }
    destruct (parse_columns _ _ _ _ _) as [[parsed1 parsed2]|] eqn:E.
    + apply parse_columns_lengths in E. destruct E as [H1 H2].
      repeat constructor; try lia.
    + repeat constructor.
  - constructor.
Qed.

Lemma sqlite_dense_events sk mk argv :
  exists result,
    is_result result = true
    /\ sqlite_dense from_chars metric sk mk argv
       = events (export sk mk argv export_start) ++ [result].
Proof.
  unfold sqlite_dense.
  destruct (error_message_out _) as [msg|].
  - exists (ev_result_error msg). split; reflexivity.
  - exists (ev_result_double (distance_out (export sk mk argv export_start))).
    split; reflexivity.
Qed.

(** X1.  Whatever the arguments, a dense distance function hands a metric
    buffers that hold what the dimension promises.  For two blobs: both of
    one length, and the dimension is the number of whole scalars of the
    function's kind in that length (none left out, no part-scalar counted),
    which is 0 for blobs shorter than one scalar.  For texts and columns:
    two arrays of exactly [dimensions] scalars each, and at least one. *)
Theorem metric_buffers_fit sk mk argv :
  Forall (buffers_fit sk) (sqlite_dense from_chars metric sk mk argv).
Proof.
  destruct (sqlite_dense_events sk mk argv) as (result & Hres & ->).
  apply Forall_app. split.
  - eapply Forall_impl; [|apply export_metric_calls]. intros e [H _]. exact H.
  - constructor; [|constructor]. destruct result; try discriminate Hres; exact I.
Qed.

(** X2.  A metric call always names the metric kind of the function called.
    It names the function's own scalar kind only when the arguments are
    blobs; for texts and columns it names the kind the values were parsed
    into, which is f64 for the f64 functions and f32 for every other one:
    the i8, f16 and binary functions given texts or columns run the f32
    kernel on f32 arrays. *)
Theorem metric_kinds_follow_the_encoding sk mk argv :
  Forall (kinds_match sk mk) (sqlite_dense from_chars metric sk mk argv)
  /\ (sk <> f64_k ->
      forall dimensions mk' sk' x1 b,
        In (ev_metric dimensions mk' sk' (scalars x1) b)
           (sqlite_dense from_chars metric sk mk argv) ->
        sk' = f32_k).
Proof.
  assert (Hall : Forall (kinds_match sk mk) (sqlite_dense from_chars metric sk mk argv)).
  { destruct (sqlite_dense_events sk mk argv) as (result & Hres & ->).
    apply Forall_app. split.
    - eapply Forall_impl; [|apply export_metric_calls]. intros e [_ H]. exact H.
    - constructor; [|constructor]. destruct result; try discriminate Hres; exact I. }
  split; [exact Hall|].
  intros Hsk dimensions mk' sk' x1 b Hin.
  rewrite Forall_forall in Hall. specialize (Hall _ Hin). cbn in Hall.
  destruct Hall as [_ ->]. destruct sk; try reflexivity. now contradiction Hsk.
Qed.

(** The lock-step loop is the two one-text loops side by side. *)
Lemma parse_texts_independent parsed (n : nat) (vec1 vec2 : string) :
  parse_texts from_chars parsed n vec1 vec2 =
  match parse_text from_chars parsed n vec1, parse_text from_chars parsed n vec2 with
  | Some parsed1, Some parsed2 => Some (parsed1, parsed2)
  | _, _ => None
  end.
Proof.
  revert vec1 vec2. induction n as [|n IH]; intros vec1 vec2; [reflexivity|].
  cbn [parse_texts parse_text]. cbv zeta.
  destruct (from_chars parsed (skip_spaces vec1)) as [[x1 k1]|].
  - destruct (from_chars parsed (skip_spaces vec2)) as [[x2 k2]|].
    + rewrite IH.
      destruct (parse_text from_chars parsed n
                  (skip_spaces_and_commas (advance k1 (skip_spaces vec1))));
        destruct (parse_text from_chars parsed n
                    (skip_spaces_and_commas (advance k2 (skip_spaces vec2))));
        reflexivity.
    + destruct (parse_text from_chars parsed n
                  (skip_spaces_and_commas (advance k1 (skip_spaces vec1))));
        reflexivity.
  - reflexivity.
Qed.

(** X3.  In a text call each text is parsed on its own: the vector a text
    yields, or its failure, depends on that text and the dimension only,
    never on the other text.  The call computes a distance exactly when the
    comma counts agree and both texts parse; the metric then gets the two
    separately parsed vectors. *)
Theorem texts_are_parsed_independently sk mk (s1 s2 : string) st :
  let parsed := parsed_scalar_kind_gt sk in
  let dimensions := sz_count_char s1 "," + 1 in
  let st' := record_event (ev_stack_array dimensions)
               (record_event (ev_stack_array dimensions) st) in
  export sk mk [value_text s1; value_text s2] st =
  if sz_count_char s1 "," =? sz_count_char s2 ","
  then
    match parse_text from_chars parsed (Z.to_nat dimensions) (strip_bracket s1),
          parse_text from_chars parsed (Z.to_nat dimensions) (strip_bracket s2) with
    | Some parsed1, Some parsed2 =>
        compute_distance metric dimensions mk parsed (scalars parsed1) (scalars parsed2) st'
    | _, _ => set_error "Number can't be parsed" st'
    end
  else set_error "Vectors have different number of dimensions" st.
Proof.
  cbv zeta. rewrite sqlite_dense_export_by_branch. cbn [selected_branch].
  change (selected_branch [value_text s1; value_text s2]) with branch_texts.
  cbn [nth]. unfold export_texts. cbn [sqlite3_value_text]. cbv zeta.
  destruct (_ =? _); cbn [negb]; [|reflexivity].
  rewrite parse_texts_independent.
  destruct (parse_text from_chars (parsed_scalar_kind_gt sk)
              (Z.to_nat (sz_count_char s1 "," + 1)) (strip_bracket s1));
    destruct (parse_text from_chars (parsed_scalar_kind_gt sk)
                (Z.to_nat (sz_count_char s1 "," + 1)) (strip_bracket s2));
    reflexivity.
Qed.

End MetricCalls.

Section Symmetry.

Variable from_chars : scalar_kind_t -> string -> option (float * nat).
Variable metric : Z -> metric_kind_t -> scalar_kind_t -> buffer -> buffer -> float.
Variable mk : metric_kind_t.

(** The metric kernel of kind [mk] does not mind the order of its
    operands. *)
Hypothesis metric_symmetric :
  forall dimensions sk a b, metric dimensions mk sk a b = metric dimensions mk sk b a.

Local Abbreviation export := (sqlite_dense_export from_chars metric).

Lemma mirror_record_stack_array n st :
  mirror_state (record_event (ev_stack_array n) st)
  = record_event (ev_stack_array n) (mirror_state st).
Proof. unfold mirror_state, record_event; cbn. now rewrite map_app. Qed.

Lemma mirror_set_error msg st :
  mirror_state (set_error msg st) = set_error msg (mirror_state st).
Proof. reflexivity. Qed.

Lemma mirror_compute_distance dimensions sk a b st :
  mirror_state (compute_distance metric dimensions mk sk a b st)
  = compute_distance metric dimensions mk sk b a (mirror_state st).
Proof.
  unfold mirror_state, compute_distance, set_distance, record_event; cbn.
  now rewrite map_app, metric_symmetric.
Qed.

Lemma export_blobs_swap sk a0 a1 st :
  export_blobs metric sk mk a1 a0 (mirror_state st)
  = mirror_state (export_blobs metric sk mk a0 a1 st).
Proof.
  unfold export_blobs. cbv zeta.
  rewrite (Z.eqb_sym (sqlite3_value_bytes a1)).
  destruct (Z.eqb_spec (sqlite3_value_bytes a0) (sqlite3_value_bytes a1)) as [E|_];
    cbn [negb]; [|reflexivity].
  now rewrite mirror_compute_distance, E.
Qed.

Lemma parse_texts_swap parsed (n : nat) (vec1 vec2 : string) :
  parse_texts from_chars parsed n vec2 vec1 =
  match parse_texts from_chars parsed n vec1 vec2 with
  | Some (parsed1, parsed2) => Some (parsed2, parsed1)
  | None => None
  end.
Proof.
  rewrite !parse_texts_independent.
  destruct (parse_text from_chars parsed n vec1);
    destruct (parse_text from_chars parsed n vec2); reflexivity.
Qed.

Lemma export_texts_swap sk a0 a1 st :
  export_texts from_chars metric sk mk a1 a0 (mirror_state st)
  = mirror_state (export_texts from_chars metric sk mk a0 a1 st).
Proof.
  unfold export_texts. cbv zeta.
  rewrite (Z.eqb_sym (sz_count_char (sqlite3_value_text a1) ",")).
  destruct (Z.eqb_spec (sz_count_char (sqlite3_value_text a0) ",")
                       (sz_count_char (sqlite3_value_text a1) ",")) as [E|_];
    cbn [negb]; [|reflexivity].
  rewrite <- E, parse_texts_swap.
  destruct (parse_texts from_chars _ _ _ _) as [[parsed1 parsed2]|].
  - now rewrite mirror_compute_distance, !mirror_record_stack_array.
  - now rewrite mirror_set_error, !mirror_record_stack_array.
Qed.

Lemma export_columns_swap sk (left right : list sqlite3_value) st :
  List.length left = List.length right ->
  export_columns metric sk mk (right ++ left) (mirror_state st)
  = mirror_state (export_columns metric sk mk (left ++ right) st).
Proof.
  intros Hlen.
  rewrite (export_columns_halves metric sk mk left right st Hlen).
  rewrite (export_columns_halves metric sk mk right left (mirror_state st) (eq_sym Hlen)).
  cbv zeta. rewrite <- Hlen.
  destruct (all_some (map (coerce (parsed_scalar_kind_gt sk)) left));
    destruct (all_some (map (coerce (parsed_scalar_kind_gt sk)) right));
    rewrite ?mirror_compute_distance, ?mirror_set_error, !mirror_record_stack_array;
    reflexivity.
Qed.

Lemma swap_vectors_length argv :
  List.length (swap_vectors argv) = List.length argv.
Proof.
  unfold swap_vectors. rewrite length_app, length_skipn, length_firstn. lia.
Qed.

Lemma selected_branch_swap argv :
  selected_branch (swap_vectors argv) = selected_branch argv.
Proof.
  destruct argv as [|a0 [|a1 [|a2 rest]]]; try reflexivity.
  - destruct a0, a1; reflexivity.
  - unfold selected_branch, two_blobs, two_texts.
    rewrite swap_vectors_length.
    destruct (Z.eqb_spec (Z.of_nat (List.length (a0 :: a1 :: a2 :: rest))) 2) as [E|_];
      [cbn [List.length] in E; lia|reflexivity].
Qed.

Lemma two_arguments argv :
  selected_branch argv = branch_blobs \/ selected_branch argv = branch_texts ->
  exists a0 a1, argv = [a0; a1].
Proof.
  destruct argv as [|a0 [|a1 [|a2 rest]]].
  - intros [H|H]; discriminate H.
  - intros [H|H]; discriminate H.
  - now exists a0, a1.
  - unfold selected_branch, two_blobs, two_texts.
    destruct (Z.eqb_spec (Z.of_nat (List.length (a0 :: a1 :: a2 :: rest))) 2) as [E|_];
      [cbn [List.length] in E; lia|].
    cbn [andb]. destruct (_ <? 2); [intros [H|H]; discriminate H|].
    destruct (Z.rem _ 2 =? 0); intros [H|H]; discriminate H.
Qed.

Lemma filter_result_mirror (l : list event) :
  filter is_result (map mirror_event l) = filter is_result l.
Proof.
  induction l as [|e l IH]; [reflexivity|].
  cbn [map filter]. rewrite IH. destruct e; reflexivity.
Qed.

(** Exchanging the vectors exchanges the metric's operands and nothing
    else. *)
Lemma sqlite_dense_export_swap sk argv st :
  export sk mk (swap_vectors argv) (mirror_state st)
  = mirror_state (export sk mk argv st).
Proof.
  rewrite !sqlite_dense_export_by_branch, selected_branch_swap.
  destruct (selected_branch argv) eqn:Hsel; try reflexivity.
  - destruct (two_arguments argv (or_introl Hsel)) as (a0 & a1 & ->).
    apply export_blobs_swap.
  - destruct (two_arguments argv (or_intror Hsel)) as (a0 & a1 & ->).
    apply export_texts_swap.
  - destruct (columns_split argv Hsel) as [Hleft Hright].
    unfold swap_vectors. cbv zeta.
    set (d := Z.to_nat (Z.quot (Z.of_nat (List.length argv)) 2)) in *.
    pose proof (export_columns_swap sk (firstn d argv) (skipn d argv) st) as H.
    rewrite firstn_skipn in H. apply H. congruence.
Qed.

(** X4.  For a metric that does not mind the order of its operands, a dense
    distance function does not mind the order of the two vectors: with the
    two blobs, the two texts or the two column halves exchanged, the call
    makes the same calls with the metric's operands exchanged, and emits
    the same distance or the same error. *)
Theorem distance_is_symmetric sk argv :
  sqlite_dense from_chars metric sk mk (swap_vectors argv)
  = map mirror_event (sqlite_dense from_chars metric sk mk argv)
  /\ filter is_result (sqlite_dense from_chars metric sk mk (swap_vectors argv))
     = filter is_result (sqlite_dense from_chars metric sk mk argv).
Proof.
  assert (Hswap : sqlite_dense from_chars metric sk mk (swap_vectors argv)
                  = map mirror_event (sqlite_dense from_chars metric sk mk argv)).
  { unfold sqlite_dense.
    pose proof (sqlite_dense_export_swap sk argv export_start) as H.
    change (mirror_state export_start) with export_start in H. rewrite H.
    cbn [mirror_state error_message_out events distance_out].
    destruct (error_message_out _); now rewrite map_app. }
  split; [exact Hswap|].
  rewrite Hswap. apply filter_result_mirror.
Qed.

End Symmetry.

Section TextEdges.

Variable from_chars : scalar_kind_t -> string -> option (float * nat).
Variable metric : Z -> metric_kind_t -> scalar_kind_t -> buffer -> buffer -> float.

Local Abbreviation export := (sqlite_dense_export from_chars metric).

Lemma skip_spaces_spaces (n : nat) (s : string) :
  skip_spaces (spaces n ++ s)%string = skip_spaces s.
Proof. induction n as [|n IH]; [reflexivity|exact IH]. Qed.

Lemma sz_count_char_spaces (n : nat) (s : string) :
  sz_count_char (spaces n ++ s)%string "," = sz_count_char s ",".
Proof. induction n as [|n IH]; [reflexivity|exact IH]. Qed.

Lemma strip_bracket_spaces (n : nat) (s : string) :
  strip_bracket s = s -> strip_bracket (spaces n ++ s)%string = (spaces n ++ s)%string.
Proof. destruct n; [trivial|reflexivity]. Qed.

Lemma parse_texts_spaces parsed (n n1 n2 : nat) (vec1 vec2 : string) :
  parse_texts from_chars parsed n (spaces n1 ++ vec1)%string (spaces n2 ++ vec2)%string
  = parse_texts from_chars parsed n vec1 vec2.
Proof.
  destruct n as [|n]; [reflexivity|].
  cbn [parse_texts]. cbv zeta. now rewrite !skip_spaces_spaces.
Qed.

(** X5.  Spaces in front of the first numeral do not count: for texts
    written without a leading bracket, any number of spaces put in front of
    either text, or between an opening bracket and the text, leaves the
    whole outcome of the call as it was. *)
Theorem leading_spaces_are_skipped sk mk (n1 n2 : nat) (s1 s2 : string) st :
  strip_bracket s1 = s1 ->
  strip_bracket s2 = s2 ->
  let bare := export sk mk [value_text s1; value_text s2] st in
  export sk mk [value_text (spaces n1 ++ s1)%string;
                value_text (spaces n2 ++ s2)%string] st = bare
  /\ export sk mk [value_text ("[" ++ spaces n1 ++ s1)%string;
                   value_text ("[" ++ spaces n2 ++ s2)%string] st = bare.
Proof.
  intros Hs1 Hs2. cbv zeta. split.
  - apply export_texts_congruence; try apply sz_count_char_spaces.
    intros n. rewrite !strip_bracket_spaces, Hs1, Hs2 by assumption.
    apply parse_texts_spaces.
  - apply export_texts_congruence.
    + exact (sz_count_char_spaces n1 s1).
    + exact (sz_count_char_spaces n2 s2).
    + intros n. cbn [append]. rewrite !strip_bracket_open, Hs1, Hs2.
      apply parse_texts_spaces.
Qed.

(** A text with nothing but spaces behind the optional bracket has no
    comma. *)
Lemma blank_has_no_comma (s : string) :
  skip_spaces (strip_bracket s) = "" -> sz_count_char s "," = 0.
Proof.
  assert (Hblank : forall t, skip_spaces t = "" -> sz_count_char t "," = 0).
  { induction t as [|x t IH]; [reflexivity|].
    cbn [skip_spaces sz_count_char].
    destruct (Ascii.eqb_spec x " ") as [->|_]; [|discriminate].
    intros H. now rewrite (IH H). }
  destruct s as [|x s]; [reflexivity|].
  unfold strip_bracket.
  destruct (Ascii.eqb_spec x "[") as [->|_].
  - intros H. cbn [sz_count_char]. now rewrite (Hblank s H).
  - apply Hblank.
Qed.

(** The first numeral of either text must be readable. *)
Lemma first_numeral_unread sk mk (s1 s2 : string) :
  from_chars (parsed_scalar_kind_gt sk) (skip_spaces (strip_bracket s1)) = None
  \/ from_chars (parsed_scalar_kind_gt sk) (skip_spaces (strip_bracket s2)) = None ->
  let dimensions := sz_count_char s1 "," + 1 in
  sqlite_dense from_chars metric sk mk [value_text s1; value_text s2]
  = if sz_count_char s1 "," =? sz_count_char s2 ","
    then [ev_stack_array dimensions; ev_stack_array dimensions; ev_result_error cannot_parse]
    else [ev_result_error different_dimensions].
Proof.
  intros Hfail. cbv zeta. unfold sqlite_dense.
  rewrite sqlite_dense_export_by_branch.
  change (selected_branch [value_text s1; value_text s2]) with branch_texts.
  cbn [nth]. unfold export_texts. cbn [sqlite3_value_text]. cbv zeta.
  destruct (_ =? _); cbn [negb]; [|reflexivity].
  pose proof (sz_count_char_bounds s1 ",") as Hc.
  destruct (Z.to_nat (sz_count_char s1 "," + 1)) as [|n] eqn:En; [lia|].
  cbn [parse_texts]. cbv zeta.
  destruct Hfail as [-> | H2]; [reflexivity|].
  rewrite H2.
  destruct (from_chars (parsed_scalar_kind_gt sk) (skip_spaces (strip_bracket s1)))
    as [[x k]|]; reflexivity.
Qed.

(** X6.  With a number parser that reads nothing from an empty input: if
    either text of a text call is empty, or holds only spaces behind the
    optional opening bracket, the call fails and no metric is invoked.  The
    error is "Number can't be parsed", after two arrays of one scalar were
    declared, when the other text has no comma, and the dimension mismatch
    otherwise: no text is a vector of dimension 0. *)
Theorem blank_text_is_no_vector sk mk (s1 s2 : string) :
  (forall parsed, from_chars parsed "" = None) ->
  skip_spaces (strip_bracket s1) = "" \/ skip_spaces (strip_bracket s2) = "" ->
  sqlite_dense from_chars metric sk mk [value_text s1; value_text s2]
  = if sz_count_char s1 "," =? sz_count_char s2 ","
    then [ev_stack_array 1; ev_stack_array 1; ev_result_error "Number can't be parsed"]
    else [ev_result_error "Vectors have different number of dimensions"].
Proof.
  intros Hempty Hblank.
  rewrite first_numeral_unread
    by (destruct Hblank as [-> | ->]; [left|right]; apply Hempty).
  cbv zeta.
  destruct (Z.eqb_spec (sz_count_char s1 ",") (sz_count_char s2 ",")) as [E|_];
    [|reflexivity].
  assert (H0 : sz_count_char s1 "," = 0).
  { destruct Hblank as [H|H]; [|rewrite E]; now apply blank_has_no_comma. }
  now rewrite H0.
Qed.

(** X7.  With a number parser that reads nothing from an input starting
    with an opening bracket: the bracket of a text is dropped only as the
    very first byte, and once.  A text whose bracket stands behind spaces,
    or stands twice, makes the call fail and no metric is invoked: with
    "Number can't be parsed" when the comma counts agree, with the dimension
    mismatch otherwise. *)
Theorem bracket_counts_only_in_front sk mk (s1 s2 rest : string) :
  (forall parsed s, from_chars parsed (String "[" s) = None) ->
  skip_spaces (strip_bracket s1) = String "[" rest
  \/ skip_spaces (strip_bracket s2) = String "[" rest ->
  let dimensions := sz_count_char s1 "," + 1 in
  sqlite_dense from_chars metric sk mk [value_text s1; value_text s2]
  = if sz_count_char s1 "," =? sz_count_char s2 ","
    then [ev_stack_array dimensions; ev_stack_array dimensions;
          ev_result_error "Number can't be parsed"]
    else [ev_result_error "Vectors have different number of dimensions"].
Proof.
  intros Hbracket Hfront. cbv zeta.
  now rewrite first_numeral_unread
    by (destruct Hfront as [-> | ->]; [left|right]; apply Hbracket).
Qed.

(** X9.  Two blobs of one length are never refused, whatever they hold and
    however long they are: the metric is invoked once, on the two blobs as
    they are, with the dimension [8 * length / bits per scalar] rounded
    down, and its value is emitted.  The dimension is 0 exactly when a blob
    is shorter than one scalar, as two empty blobs are. *)
Theorem equal_blobs_are_taken_whole sk mk (b1 b2 : list Byte.byte) :
  List.length b1 = List.length b2 ->
  let dimensions := CHAR_BIT * Z.of_nat (List.length b1) / bits_per_scalar sk in
  sqlite_dense from_chars metric sk mk [value_blob b1; value_blob b2]
  = [ev_metric dimensions mk sk (raw_bytes b1) (raw_bytes b2);
     ev_result_double (metric dimensions mk sk (raw_bytes b1) (raw_bytes b2))]
  /\ (dimensions = 0 <-> CHAR_BIT * Z.of_nat (List.length b1) < bits_per_scalar sk).
Proof.
  intros Hlen. cbv zeta. split.
  - unfold sqlite_dense. rewrite sqlite_dense_export_by_branch.
    change (selected_branch [value_blob b1; value_blob b2]) with branch_blobs.
    cbn [nth]. unfold export_blobs. cbn [sqlite3_value_blob sqlite3_value_bytes].
    cbv zeta. rewrite Hlen, Z.eqb_refl. cbn [negb].
    rewrite (Z.mul_comm CHAR_BIT). reflexivity.
  - pose proof (bits_per_scalar_positive sk) as Hbits.
    rewrite Z.div_small_iff by lia. unfold CHAR_BIT. lia.
Qed.

End TextEdges.

Section HaversineMeters.

Variable from_chars : scalar_kind_t -> string -> option (float * nat).
Variable metric : Z -> metric_kind_t -> scalar_kind_t -> buffer -> buffer -> float.
Variable distance_kind : scalar_kind_t.

(** X8.  [distance_haversine_meters] is [distance_haversine_f64] with the
    emitted distance rescaled: on every argument list the two make the same
    array declarations and the same metric call, fail together with the
    same message, and where the one emits a distance [d] the other emits
    [d] multiplied by 6371009. *)
Theorem haversine_meters_is_haversine_f64_rescaled argv :
  sqlite_haversine_meters from_chars metric distance_kind argv
  = map (rescale_result distance_kind)
        (sqlite_dense from_chars metric f64_k haversine_k argv).
Proof.
  unfold sqlite_haversine_meters, sqlite_dense.
  destruct (sqlite_dense_export_outcome from_chars metric f64_k haversine_k argv export_start)
    as [msg pre Hpre ->|pre dimensions sk' a b Hpre ->];
    cbn [error_message_out events distance_out export_start app];
    rewrite !map_app; cbn [map rescale_result]; f_equal.
  - induction Hpre as [|e pre He _ IH]; [reflexivity|].
    cbn [map]. rewrite <- IH. destruct e; try discriminate He. reflexivity.
  - f_equal. induction Hpre as [|e pre He _ IH]; [reflexivity|].
    cbn [map]. rewrite <- IH. destruct e; try discriminate He. reflexivity.
Qed.

End HaversineMeters.

(** * More on the edit-distance function *)

Section KernelScratch.

Variable sz_levenshtein_memory_needed : Z -> Z -> Z.
Variable sz_levenshtein : string -> string -> Z -> Z.

Local Abbreviation levenshtein :=
  (sqlite_levenshtein sz_levenshtein_memory_needed sz_levenshtein).
Local Abbreviation run_ops := (run sz_levenshtein_memory_needed sz_levenshtein).

(** X10.  Whatever calls and teardowns came before, a call on two texts
    that needs a positive scratch size hands the edit-distance kernel a
    region that is allocated at that moment and at least as large as the
    size needed: the kernel never gets NULL, a freed block or a block too
    small, also right after a teardown. *)
Theorem kernel_scratch_is_live_and_large_enough ops argv n :
  requested sz_levenshtein_memory_needed argv = Some n ->
  0 < n ->
  let q := levenshtein argv (run_ops ops process_start) in
  let str1 := sqlite3_value_text (nth 0 argv value_null) in
  let str2 := sqlite3_value_text (nth 1 argv value_null) in
  exists b earlier,
    calls q = earlier ++ [ev_levenshtein str1 str2 255 (Some b);
                          ev_result_int (sz_levenshtein str1 str2 255)]
    /\ start (temporary_memory q) = Some b
    /\ live q = [(b, length (temporary_memory q))]
    /\ n <= length (temporary_memory q).
Proof.
  intros Hn Hpos. cbv zeta.
  set (p := run_ops ops process_start).
  assert (Hacc : blocks_accounted (levenshtein argv p)).
  { apply blocks_accounted_levenshtein, blocks_accounted_run, blocks_accounted_start. }
  pose proof (levenshtein_length sz_levenshtein_memory_needed sz_levenshtein argv p) as Hlen.
  rewrite Hn in Hlen.
  destruct Hacc as (Hcons & _). unfold scratch_consistent in Hcons.
  destruct (start (temporary_memory (levenshtein argv p))) as [b|] eqn:Hb.
  - exists b.
    rewrite (levenshtein_accepts sz_levenshtein_memory_needed sz_levenshtein argv p n Hn)
      in Hb |- *.
    cbv zeta in Hb |- *. cbn [record_call calls temporary_memory] in Hb |- *.
    rewrite Hb. eexists. split; [rewrite <- app_assoc; reflexivity|].
    rewrite (levenshtein_accepts sz_levenshtein_memory_needed sz_levenshtein argv p n Hn)
      in Hcons, Hlen.
    cbv zeta in Hcons, Hlen. cbn [record_call live temporary_memory] in Hcons, Hlen.
    split; [reflexivity|]. split; [exact Hcons|lia].
  - destruct Hcons as [H0 _]. lia.
Qed.

End KernelScratch.

(** * The Postgres utility *)

Lemma write_bytes_length (at_offset : nat) (src : list Byte.byte) (m : chunk) :
  (at_offset + List.length src <= List.length m)%nat ->
  List.length (write_bytes at_offset src m) = List.length m.
Proof.
  intros Hfit. unfold write_bytes.
  rewrite !length_app, length_firstn, length_map, length_skipn. lia.
Qed.

(** Writing the header word into a fresh chunk. *)
Lemma write_bytes_header (w : list Byte.byte) (n : nat) :
  List.length w = 4%nat ->
  write_bytes 0 w (repeat None (4 + n)) = map Some w ++ repeat None n.
Proof.
  intros Hw. unfold write_bytes. rewrite Hw. reflexivity.
Qed.

(** Filling the unwritten rest of a chunk. *)
Lemma write_bytes_at_end (written : chunk) (src : list Byte.byte) :
  write_bytes (List.length written) src (written ++ repeat None (List.length src))
  = written ++ map Some src.
Proof.
  unfold write_bytes.
  rewrite firstn_app, firstn_all, Nat.sub_diag, firstn_O, app_nil_r.
  rewrite skipn_all2 by (rewrite length_app, repeat_length; lia).
  now rewrite app_nil_r.
Qed.

(** X11.  [copytext] returns an exact copy under a full-length header,
    whichever header its argument has: the chunk is the four-byte length
    word for the data length plus four, followed by the argument's data
    bytes, byte for byte.  Every byte of the allocation is written, none is
    written behind its end, and the copy of an empty text is the length
    word alone. *)
Theorem copytext_is_an_exact_copy (length_word : Z -> list Byte.byte) (t : text) :
  (forall len, List.length (length_word len) = 4%nat) ->
  let data_bytes := Z.of_nat (List.length (vl_dat t)) in
  copytext length_word t = map Some (length_word (data_bytes + 4) ++ vl_dat t)
  /\ Z.of_nat (List.length (copytext length_word t)) = VARSIZE_ANY_EXHDR t + VARHDRSZ
  /\ skipn 4 (copytext length_word t) = map Some (VARDATA_ANY t)
  /\ copytext length_word t
     = copytext length_word {| vl_header := header_full; vl_dat := vl_dat t |}.
Proof.
  intros Hword. cbv zeta.
  assert (Hex : forall t', VARSIZE_ANY_EXHDR t' = Z.of_nat (List.length (vl_dat t'))).
  { intros [[] d]; unfold VARSIZE_ANY_EXHDR, VARSIZE_ANY, VARHDRSZ, VARHDRSZ_SHORT;
      cbn [vl_header vl_dat]; lia. }
  assert (Hcopy : forall t',
             copytext length_word t'
             = map Some (length_word (Z.of_nat (List.length (vl_dat t')) + 4) ++ vl_dat t')).
  { intros t'. unfold copytext, SET_VARSIZE, memcpy, palloc, VARDATA_ANY. cbv zeta.
    rewrite Hex. unfold VARHDRSZ.
    set (d := vl_dat t'). set (w := length_word (Z.of_nat (List.length d) + 4)).
    assert (Hw : List.length w = 4%nat) by apply Hword.
    replace (Z.to_nat (Z.of_nat (List.length d) + 4)) with (4 + List.length d)%nat by lia.
    rewrite Nat2Z.id, firstn_all.
    change (Z.to_nat 4) with 4%nat.
    rewrite (write_bytes_header w (List.length d) Hw).
    rewrite <- Hw at 1. rewrite <- (length_map Some w).
    rewrite write_bytes_at_end. now rewrite map_app. }
  split; [apply Hcopy|]. split; [|split].
  - rewrite Hcopy, length_map, length_app, Hword, Hex. unfold VARHDRSZ. lia.
  - rewrite Hcopy, map_app.
    rewrite <- (Hword (Z.of_nat (List.length (vl_dat t)) + 4)) at 1.
    rewrite <- (length_map Some (length_word (Z.of_nat (List.length (vl_dat t)) + 4))).
    rewrite skipn_app, skipn_all, Nat.sub_diag. reflexivity.
  - now rewrite !Hcopy.
Qed.

(** * Registration *)

Lemma distinct_NoDup (names : list string) : distinct names = true -> NoDup names.
Proof.
  induction names as [|x rest IH]; [constructor|].
  cbn [distinct]. intros H. apply andb_prop in H. destruct H as [Hx Hrest].
  constructor; [|now apply IH].
  intros Hin. apply negb_true_iff in Hx.
  assert (Hex : existsb (String.eqb x) rest = true).
  { apply existsb_exists. exists x. split; [exact Hin|apply String.eqb_refl]. }
  congruence.
Qed.

Lemma find_nothing {A : Type} (f : A -> bool) (l : list A) :
  (forall x, In x l -> f x = false) -> find f l = None.
Proof.
  induction l as [|x l IH]; intros H; [reflexivity|].
  cbn [find]. rewrite (H x (or_introl eq_refl)).
  apply IH. intros y Hy. apply H. now right.
Qed.

(** In a register of distinct names a name finds its own registration, if
    the number of arguments suits it. *)
Lemma find_function_own (db : list registration) (r : registration) (argc : Z) :
  NoDup (map zFunctionName db) -> In r db ->
  find_function db (zFunctionName r) argc = if accepts r argc then Some r else None.
Proof.
  unfold find_function.
  induction db as [|r0 db IH]; intros Hnodup Hin; [contradiction|].
  cbn [map] in Hnodup. inversion Hnodup as [|x l Hnotin Hrest]; subst.
  cbn [find]. destruct Hin as [->|Hin].
  - rewrite String.eqb_refl. cbn [andb].
    destruct (accepts r argc); [reflexivity|].
    apply find_nothing. intros r' Hr'.
    destruct (String.eqb_spec (zFunctionName r') (zFunctionName r)) as [E|_];
      [|reflexivity].
    exfalso. apply Hnotin. rewrite <- E. now apply in_map.
  - destruct (String.eqb_spec (zFunctionName r0) (zFunctionName r)) as [E|_].
    + exfalso. apply Hnotin. rewrite E. now apply in_map.
    + cbn [andb]. now apply IH.
Qed.

(** X12.  The extension registers 22 functions under 22 different names,
    so that none replaces another and every name finds its own callback.
    Each dense callback is registered under the name that spells its metric
    and its scalar kind, takes any number of arguments and has no
    destructor; only [distance_levenshtein] takes a fixed number of
    arguments, two, and has the scratch buffer's cleanup as destructor.  A
    call the host routes to the edit-distance callback therefore always has
    exactly two arguments. *)
Theorem registrations_are_as_named :
  let db := sqlite3_compiled_init [] in
  List.length db = 22%nat
  /\ NoDup (map zFunctionName db)
  /\ forallb registered_as_named db = true
  /\ (forall r argc,
        In r db ->
        find_function db (zFunctionName r) argc = if accepts r argc then Some r else None)
  /\ (forall name argc r,
        find_function db name argc = Some r -> xFunc r = call_levenshtein -> argc = 2)
  /\ (forall sk mk argc,
        In (call_dense sk mk) (map xFunc db) ->
        option_map xFunc (find_function db (dense_name sk mk) argc)
        = Some (call_dense sk mk)).
Proof.
  cbv zeta.
  assert (Hnodup : NoDup (map zFunctionName (sqlite3_compiled_init []))).
  { apply distinct_NoDup. vm_compute. reflexivity. }
  assert (Hnamed : forallb registered_as_named (sqlite3_compiled_init []) = true).
  { vm_compute. reflexivity. }
  split; [reflexivity|]. split; [exact Hnodup|]. split; [exact Hnamed|].
  split; [intros r argc; now apply find_function_own|]. split.
  - intros name argc r Hfind Hcall.
    apply find_some in Hfind. destruct Hfind as [Hin Hmatch].
    rewrite forallb_forall in Hnamed. specialize (Hnamed r Hin).
    unfold registered_as_named in Hnamed. rewrite Hcall in Hnamed.
    apply andb_prop in Hmatch. destruct Hmatch as [_ Hacc].
    apply andb_prop in Hnamed. destruct Hnamed as [Hnamed _].
    apply andb_prop in Hnamed. destruct Hnamed as [_ Harg].
    apply Z.eqb_eq in Harg. unfold accepts in Hacc. rewrite Harg in Hacc.
    apply orb_prop in Hacc. destruct Hacc as [H|H]; apply Z.eqb_eq in H; lia.
  - intros sk mk argc Hin.
    apply in_map_iff in Hin. destruct Hin as (r & Hcall & Hin).
    pose proof Hnamed as Hr. rewrite forallb_forall in Hr. specialize (Hr r Hin).
    unfold registered_as_named in Hr. rewrite Hcall in Hr.
    apply andb_prop in Hr. destruct Hr as [Hr _].
    apply andb_prop in Hr. destruct Hr as [Hname Harg].
    apply String.eqb_eq in Hname. apply Z.eqb_eq in Harg.
    rewrite <- Hname, (find_function_own _ r argc Hnodup Hin).
    unfold accepts. rewrite Harg. cbn. rewrite orb_true_r. cbn. now rewrite Hcall.
Qed.

(** * Two more facts about kinds and sizes *)

(** X13.  Texts and columns make no difference between the non-f64 scalar
    kinds: given anything but two blobs, the i8, f16 and binary variants of
    a distance function behave, call for call, as its f32 variant does. *)
Theorem narrow_kinds_share_the_f32_path
    (from_chars : scalar_kind_t -> string -> option (float * nat))
    (metric : Z -> metric_kind_t -> scalar_kind_t -> buffer -> buffer -> float)
    sk mk argv :
  sk <> f64_k ->
  two_blobs argv = false ->
  sqlite_dense from_chars metric sk mk argv = sqlite_dense from_chars metric f32_k mk argv.
Proof.
  intros Hsk Hblobs. unfold sqlite_dense.
  rewrite !sqlite_dense_export_by_branch.
  assert (Hsel : selected_branch argv <> branch_blobs).
  { unfold selected_branch. rewrite Hblobs.
    destruct (_ <? 2); [discriminate|].
    destruct (two_texts argv); [discriminate|].
    destruct (Z.rem _ 2 =? 0); discriminate. }
  destruct (selected_branch argv); try reflexivity; try (now contradiction Hsel);
    destruct sk; try reflexivity; now contradiction Hsk.
Qed.

(** The scratch length after calls only, from the sizes they asked for. *)
Lemma run_calls_exact_length
    (memory_needed : Z -> Z -> Z) (kernel : string -> string -> Z -> Z) argvs p :
  length (temporary_memory (run memory_needed kernel (map op_levenshtein argvs) p))
  = fold_left
      (fun size argv =>
         match requested memory_needed argv with
         | Some n => Z.max size n
         | None => size
         end)
      argvs (length (temporary_memory p)).
Proof.
  revert p. induction argvs as [|argv argvs IH]; intros p; [reflexivity|].
  cbn [map fold_left]. unfold run in *. cbn [fold_left step].
  rewrite IH, levenshtein_length. reflexivity.
Qed.

(** The maximum a fold of [Z.max] computes: above its start and every
    size asked for, and one of them. *)
Lemma fold_requests_is_max (memory_needed : Z -> Z -> Z)
    (argvs : list (list sqlite3_value)) (size0 : Z) :
  let largest :=
    fold_left
      (fun size argv =>
         match requested memory_needed argv with
         | Some n => Z.max size n
         | None => size
         end)
      argvs size0 in
  size0 <= largest
  /\ (forall argv n, In argv argvs -> requested memory_needed argv = Some n -> n <= largest)
  /\ (largest = size0
      \/ exists argv, In argv argvs /\ requested memory_needed argv = Some largest).
Proof.
  cbv zeta. revert size0. induction argvs as [|argv argvs IH]; intros size0.
  - cbn. split; [lia|]. split; [intros ? ? []|now left].
  - cbn [fold_left].
    destruct (requested memory_needed argv) as [n|] eqn:E.
    + destruct (IH (Z.max size0 n)) as (Hge & Hall & Hone).
      split; [lia|]. split.
      * intros a m [<-|Hin] Hm; [|now apply (Hall a)].
        rewrite E in Hm. injection Hm as <-. lia.
      * destruct Hone as [Heq|(a & Hin & Ha)].
        -- destruct (Z.max_spec size0 n) as [[_ Hmax]|[_ Hmax]].
           ++ right. exists argv. split; [now left|]. rewrite E. congruence.
           ++ left. congruence.
        -- right. exists a. split; [now right|exact Ha].
    + destruct (IH size0) as (Hge & Hall & Hone).
      split; [exact Hge|]. split.
      * intros a m [<-|Hin] Hm; [congruence|now apply (Hall a)].
      * destruct Hone as [Heq|(a & Hin & Ha)]; [now left|].
        right. exists a. split; [now right|exact Ha].
Qed.

(** X14.  The scratch buffer is never larger than the largest size asked
    for.  Right after a teardown its length is 0; after any calls following
    the start of the process or a teardown its length is exactly the
    largest size those calls asked for (0 if none asked for a positive
    size): it is at least every size asked for and it is 0 or one of the
    sizes asked for, so sizes within a limit keep the buffer within that
    limit. *)
Theorem scratch_is_the_largest_request
    (memory_needed : Z -> Z -> Z) (kernel : string -> string -> Z -> Z)
    (earlier : list (operation)) (argvs : list (list sqlite3_value)) :
  let fresh := run memory_needed kernel (earlier ++ [op_cleanup]) process_start in
  let largest := largest_request memory_needed argvs in
  length (temporary_memory fresh) = 0
  /\ length (temporary_memory (run memory_needed kernel (map op_levenshtein argvs) fresh))
     = largest
  /\ length (temporary_memory
               (run memory_needed kernel (map op_levenshtein argvs) process_start))
     = largest
  /\ 0 <= largest
  /\ (forall argv n, In argv argvs -> requested memory_needed argv = Some n -> n <= largest)
  /\ (largest = 0
      \/ exists argv, In argv argvs /\ requested memory_needed argv = Some largest)
  /\ (forall limit,
        0 <= limit ->
        (forall argv n,
            In argv argvs -> requested memory_needed argv = Some n -> n <= limit) ->
        largest <= limit).
Proof.
  cbv zeta.
  assert (Hfresh : length (temporary_memory
                             (run memory_needed kernel (earlier ++ [op_cleanup])
                                process_start)) = 0).
  { unfold run. rewrite fold_left_app. cbn [fold_left step].
    destruct (cleanup_spec
                (fold_left (step memory_needed kernel) earlier process_start)
                (blocks_accounted_run memory_needed kernel earlier process_start
                   blocks_accounted_start))
      as (_ & Hmem & _).
    now rewrite Hmem. }
  destruct (fold_requests_is_max memory_needed argvs 0) as (Hge & Hall & Hone).
  fold (largest_request memory_needed argvs) in Hge, Hall, Hone.
  split; [exact Hfresh|]. split.
  { rewrite run_calls_exact_length, Hfresh. reflexivity. }
  split; [rewrite run_calls_exact_length; reflexivity|].
  split; [exact Hge|]. split; [exact Hall|]. split; [exact Hone|].
  intros limit Hlimit Hreq.
  destruct Hone as [->|(argv & Hin & Hlargest)]; [exact Hlimit|].
  exact (Hreq argv _ Hin Hlargest).
Qed.

(** * More concrete calls *)

Lemma byte_eqb_sym (x y : Byte.byte) : Byte.eqb x y = Byte.eqb y x.
Proof.
  destruct (Byte.eqb x y) eqn:Exy.
  - apply Byte.byte_dec_bl in Exy. subst. symmetry. now apply Byte.byte_dec_lb.
  - destruct (Byte.eqb y x) eqn:Eyx; [|reflexivity].
    apply Byte.byte_dec_bl in Eyx. subst.
    rewrite (Byte.byte_dec_lb (eq_refl x)) in Exy. discriminate.
Qed.

Lemma float_same_sym (x y : float) : float_same x y = float_same y x.
Proof.
  unfold float_same.
  destruct (Prim2SF x) as [s1|s1| |s1 m1 e1], (Prim2SF y) as [s2|s2| |s2 m2 e2];
    try reflexivity.
  - now destruct s1, s2.
  - now destruct s1, s2.
  - rewrite (Pos.eqb_sym m1), (Z.eqb_sym e1). now destruct s1, s2.
Qed.

Lemma pairwise_sym {A : Type} (same : A -> A -> bool) (x y : list A) :
  (forall a b, same a b = same b a) ->
  forallb (fun p => same (fst p) (snd p)) (combine x y)
  = forallb (fun p => same (fst p) (snd p)) (combine y x).
Proof.
  intros Hsym. revert y. induction x as [|a x IH]; intros [|b y]; try reflexivity.
  cbn. now rewrite Hsym, IH.
Qed.

Lemma discrete_metric_sym dimensions mk sk (a b : buffer) :
  discrete_metric dimensions mk sk a b = discrete_metric dimensions mk sk b a.
Proof.
  unfold discrete_metric.
  assert (H : buffer_eqb a b = buffer_eqb b a).
  { destruct a as [x|x], b as [y|y]; try reflexivity; cbn.
    - now rewrite Nat.eqb_sym, (pairwise_sym Byte.eqb x y byte_eqb_sym).
    - now rewrite Nat.eqb_sym, (pairwise_sym float_same x y float_same_sym). }
  now rewrite H.
Qed.

(** X4: four columns, their halves exchanged; and two texts. *)
Lemma distance_is_symmetric_witness :
  (forall dimensions sk a b,
      discrete_metric dimensions cos_k sk a b = discrete_metric dimensions cos_k sk b a)
  /\ swap_vectors [value_integer 1; value_null; value_float 0.5%float; value_integer 2]
     = [value_float 0.5%float; value_integer 2; value_integer 1; value_null]
  /\ filter is_result
       (sqlite_dense decimal_from_chars discrete_metric f32_k cos_k
          (swap_vectors [value_integer 1; value_null; value_float 0.5%float; value_integer 2]))
     = filter is_result
         (sqlite_dense decimal_from_chars discrete_metric f32_k cos_k
            [value_integer 1; value_null; value_float 0.5%float; value_integer 2])
  /\ sqlite_dense decimal_from_chars discrete_metric f32_k cos_k
       (swap_vectors [value_text "1,2"; value_text "[3,4]"])
     = map mirror_event
         (sqlite_dense decimal_from_chars discrete_metric f32_k cos_k
            [value_text "1,2"; value_text "[3,4]"]).
Proof.
  split; [intros; apply discrete_metric_sym|]. split; [reflexivity|]. split.
  - exact (proj2 (distance_is_symmetric decimal_from_chars discrete_metric cos_k
                    (fun d sk a b => discrete_metric_sym d cos_k sk a b) f32_k
                    [value_integer 1; value_null; value_float 0.5%float; value_integer 2])).
  - exact (proj1 (distance_is_symmetric decimal_from_chars discrete_metric cos_k
                    (fun d sk a b => discrete_metric_sym d cos_k sk a b) f32_k
                    [value_text "1,2"; value_text "[3,4]"])).
Defined.

(** X5: spaces before the numerals, bare and behind the bracket. *)
Lemma leading_spaces_are_skipped_witness :
  strip_bracket "1, 2" = "1, 2"
  /\ strip_bracket "3,4" = "3,4"
  /\ sqlite_dense_export decimal_from_chars discrete_metric f64_k ip_k
       [value_text "  1, 2"; value_text " 3,4"] export_start
     = sqlite_dense_export decimal_from_chars discrete_metric f64_k ip_k
         [value_text "1, 2"; value_text "3,4"] export_start
  /\ sqlite_dense_export decimal_from_chars discrete_metric f64_k ip_k
       [value_text "[  1, 2"; value_text "[ 3,4"] export_start
     = sqlite_dense_export decimal_from_chars discrete_metric f64_k ip_k
         [value_text "1, 2"; value_text "3,4"] export_start.
Proof.
  split; [reflexivity|]. split; [reflexivity|].
  exact (leading_spaces_are_skipped decimal_from_chars discrete_metric f64_k ip_k
           2 1 "1, 2" "3,4" export_start eq_refl eq_refl).
Defined.

(** X6: an empty text, and a bracket with spaces only. *)
Lemma blank_text_is_no_vector_witness :
  (forall parsed, decimal_from_chars parsed "" = None)
  /\ (skip_spaces (strip_bracket "") = "" \/ skip_spaces (strip_bracket "7") = "")
  /\ sqlite_dense decimal_from_chars discrete_metric f32_k l2sq_k
       [value_text ""; value_text "7"]
     = [ev_stack_array 1; ev_stack_array 1; ev_result_error "Number can't be parsed"]
  /\ (skip_spaces (strip_bracket "1,2") = "" \/ skip_spaces (strip_bracket "[  ") = "")
  /\ sqlite_dense decimal_from_chars discrete_metric f32_k l2sq_k
       [value_text "1,2"; value_text "[  "]
     = [ev_result_error "Vectors have different number of dimensions"].
Proof.
  split; [reflexivity|]. split; [left; reflexivity|]. split.
  - exact (blank_text_is_no_vector decimal_from_chars discrete_metric f32_k l2sq_k
             "" "7" (fun _ => eq_refl) (or_introl eq_refl)).
  - split; [right; reflexivity|].
    exact (blank_text_is_no_vector decimal_from_chars discrete_metric f32_k l2sq_k
             "1,2" "[  " (fun _ => eq_refl) (or_intror eq_refl)).
Defined.

(** X7: a bracket behind a space, and a doubled bracket. *)
Lemma bracket_counts_only_in_front_witness :
  (forall parsed s, decimal_from_chars parsed (String "[" s) = None)
  /\ (skip_spaces (strip_bracket " [1,2]") = String "[" "1,2]"
      \/ skip_spaces (strip_bracket "[3,4]") = String "[" "1,2]")
  /\ sqlite_dense decimal_from_chars discrete_metric f64_k cos_k
       [value_text " [1,2]"; value_text "[3,4]"]
     = [ev_stack_array 2; ev_stack_array 2; ev_result_error "Number can't be parsed"]
  /\ sqlite_dense decimal_from_chars discrete_metric f64_k cos_k
       [value_text "[1,2]"; value_text "[[3,4]]"]
     = [ev_stack_array 2; ev_stack_array 2; ev_result_error "Number can't be parsed"].
Proof.
  split; [reflexivity|]. split; [left; reflexivity|]. split.
  - exact (bracket_counts_only_in_front decimal_from_chars discrete_metric f64_k cos_k
             " [1,2]" "[3,4]" "1,2]" (fun _ _ => eq_refl) (or_introl eq_refl)).
  - exact (bracket_counts_only_in_front decimal_from_chars discrete_metric f64_k cos_k
             "[1,2]" "[[3,4]]" "3,4]]" (fun _ _ => eq_refl) (or_intror eq_refl)).
Defined.

(** X9: two empty blobs, and two blobs of five bytes as f32 vectors. *)
Lemma equal_blobs_are_taken_whole_witness :
  List.length (@nil Byte.byte) = List.length (@nil Byte.byte)
  /\ sqlite_dense decimal_from_chars discrete_metric f32_k l2sq_k
       [value_blob []; value_blob []]
     = [ev_metric 0 l2sq_k f32_k (raw_bytes []) (raw_bytes []); ev_result_double 0%float]
  /\ sqlite_dense decimal_from_chars discrete_metric f32_k l2sq_k
       [value_blob [Byte.x00; Byte.x00; Byte.x80; Byte.x3f; Byte.x07];
        value_blob [Byte.x00; Byte.x00; Byte.x80; Byte.x3f; Byte.x09]]
     = [ev_metric 1 l2sq_k f32_k
          (raw_bytes [Byte.x00; Byte.x00; Byte.x80; Byte.x3f; Byte.x07])
          (raw_bytes [Byte.x00; Byte.x00; Byte.x80; Byte.x3f; Byte.x09]);
        ev_result_double 1%float].
Proof.
  split; [reflexivity|]. split.
  - exact (proj1 (equal_blobs_are_taken_whole decimal_from_chars discrete_metric
                    f32_k l2sq_k [] [] eq_refl)).
  - exact (proj1 (equal_blobs_are_taken_whole decimal_from_chars discrete_metric
                    f32_k l2sq_k
                    [Byte.x00; Byte.x00; Byte.x80; Byte.x3f; Byte.x07]
                    [Byte.x00; Byte.x00; Byte.x80; Byte.x3f; Byte.x09] eq_refl)).
Defined.

(** X10: a call right after a call and a teardown. *)
Lemma kernel_scratch_is_live_and_large_enough_witness :
  requested two_rows [value_text "flaw"; value_text "lawn"] = Some 10
  /\ 0 < 10
  /\ exists b earlier,
       calls (sqlite_levenshtein two_rows edit_distance_bounded
                [value_text "flaw"; value_text "lawn"]
                (run two_rows edit_distance_bounded
                   [op_levenshtein [value_text "kitten"; value_text "sitting"]; op_cleanup]
                   process_start))
       = earlier ++ [ev_levenshtein "flaw" "lawn" 255 (Some b); ev_result_int 2]
       /\ 10 <= length (temporary_memory
                          (sqlite_levenshtein two_rows edit_distance_bounded
                             [value_text "flaw"; value_text "lawn"]
                             (run two_rows edit_distance_bounded
                                [op_levenshtein [value_text "kitten"; value_text "sitting"];
                                 op_cleanup]
                                process_start))).
Proof.
  split; [reflexivity|]. split; [lia|].
  destruct (kernel_scratch_is_live_and_large_enough two_rows edit_distance_bounded
              [op_levenshtein [value_text "kitten"; value_text "sitting"]; op_cleanup]
              [value_text "flaw"; value_text "lawn"] 10 eq_refl eq_refl)
    as (b & earlier & Hcalls & _ & _ & Hsize).
  exists b, earlier. split; [exact Hcalls|exact Hsize].
Defined.

(** X11: a short-header text of two bytes. *)
Lemma copytext_is_an_exact_copy_witness :
  (forall len, List.length (shifted_length_word len) = 4%nat)
  /\ copytext shifted_length_word
       {| vl_header := header_short; vl_dat := [Byte.x68; Byte.x69] |}
     = [Some Byte.x18; Some Byte.x00; Some Byte.x00; Some Byte.x00;
        Some Byte.x68; Some Byte.x69].
Proof.
  split; [reflexivity|].
  exact (proj1 (copytext_is_an_exact_copy shifted_length_word
                  {| vl_header := header_short; vl_dat := [Byte.x68; Byte.x69] |}
                  (fun _ => eq_refl))).
Defined.

(** X13: the i8 cosine function on two texts. *)
Lemma narrow_kinds_share_the_f32_path_witness :
  i8_k <> f64_k
  /\ two_blobs [value_text "1,2"; value_text "3,4"] = false
  /\ sqlite_dense decimal_from_chars discrete_metric i8_k cos_k
       [value_text "1,2"; value_text "3,4"]
     = sqlite_dense decimal_from_chars discrete_metric f32_k cos_k
         [value_text "1,2"; value_text "3,4"].
Proof.
  assert (H : i8_k <> f64_k) by discriminate.
  split; [exact H|]. split; [reflexivity|].
  exact (narrow_kinds_share_the_f32_path decimal_from_chars discrete_metric i8_k cos_k
           [value_text "1,2"; value_text "3,4"] H eq_refl).
Defined.

(** X14: two calls on texts of six and seven bytes, with the two-row
    scratch size: 16 bytes for a second text of seven, 14 for one of six. *)
Lemma scratch_is_the_largest_request_witness :
  largest_request two_rows [[value_text "kitten"; value_text "sitting"];
                            [value_text "sitting"; value_text "kitten"]] = 16
  /\ length (temporary_memory
               (run two_rows edit_distance_bounded
                  (map op_levenshtein [[value_text "kitten"; value_text "sitting"];
                                       [value_text "sitting"; value_text "kitten"]])
                  process_start))
     = 16
  /\ length (temporary_memory
               (run two_rows edit_distance_bounded
                  (map op_levenshtein [[value_text "kitten"; value_text "sitting"];
                                       [value_text "sitting"; value_text "kitten"]])
                  (run two_rows edit_distance_bounded
                     ([op_levenshtein [value_text "a"; value_text "a much longer text"]]
                      ++ [op_cleanup])
                     process_start)))
     = 16.
Proof.
  destruct (scratch_is_the_largest_request two_rows edit_distance_bounded
              [op_levenshtein [value_text "a"; value_text "a much longer text"]]
              [[value_text "kitten"; value_text "sitting"];
               [value_text "sitting"; value_text "kitten"]])
    as (_ & Hafter & Hstart & _).
  split; [reflexivity|]. split; [exact Hstart|exact Hafter].
Defined.

(** * Calls on a bounded stack *)




